(** * Portfolio API: a shallow embedding of [main.py] and its properties

    The development follows the source file top to bottom:
    - [Py]: the Python built-ins the handlers call (text as sequences of
      code points, [strip], [split], [join], [in], slicing, the stable
      [sorted]/[list.sort] with a key and [reverse]);
    - the stored values, documents as insertion-ordered dictionaries;
    - [serialize_doc], the listing endpoints, [test_database];
    - [assistant_chat] with its local functions [fetch_titles] and [score];
    - the properties of the endpoints. *)

From Stdlib Require Import NArith String Ascii Lia.
From stdpp Require Import base option list gmap sets sorting.

Open Scope N_scope.

(** ** Exceptions and results *)

(** Text is a sequence of Unicode code points, as Python's [str] is: [len]
    and slicing count code points, not bytes. *)
Abbreviation str := (list N).

(** An ASCII literal as text. *)
Definition lit (s : string) : str :=
  (λ a, N_of_ascii a) <$> list_ascii_of_string s.

Inductive exn : Type :=
  | HTTPException (status_code : nat) (detail : str)
  | TypeError.

Inductive result (A : Type) : Type :=
  | Ok (a : A)
  | Raise (e : exn).
Arguments Ok {A} a.
Arguments Raise {A} e.

Global Instance result_ret : MRet result := λ A a, Ok a.
Global Instance result_bind : MBind result := λ A B f m,
  match m with
  | Ok a => f a
  | Raise e => Raise e
  end.

Module Py.

(** *** Text *)

(** The characters [str.isspace], [str.strip()] and [str.split()] treat as
    whitespace: U+0009..U+000D, U+001C..U+0020, U+0085, U+00A0, U+1680,
    U+2000..U+200A, U+2028, U+2029, U+202F, U+205F, U+3000. *)
Definition isspace (c : N) : bool :=
  ((9 <=? c) && (c <=? 13)) || ((28 <=? c) && (c <=? 32))
  || (c =? 133) || (c =? 160) || (c =? 5760)
  || ((8192 <=? c) && (c <=? 8202))
  || (c =? 8232) || (c =? 8233) || (c =? 8239) || (c =? 8287)
  || (c =? 12288).

Fixpoint lstrip (s : str) : str :=
  match s with
  | [] => []
  | c :: s' => if isspace c then lstrip s' else s
  end.

Definition rstrip (s : str) : str := reverse (lstrip (reverse s)).

(** [s.strip()] *)
Definition strip (s : str) : str := rstrip (lstrip s).

(** [s.split()]: the maximal runs of non-whitespace characters; [cur] holds
    the run being read, last character first. *)
Fixpoint split_from (cur : str) (s : str) : list str :=
  match s with
  | [] => match cur with [] => [] | _ => [reverse cur] end
  | c :: s' =>
      if isspace c then
        match cur with
        | [] => split_from [] s'
        | _ => reverse cur :: split_from [] s'
        end
      else split_from (c :: cur) s'
  end.

Definition split (s : str) : list str := split_from [] s.

(** [sep.join(l)] *)
Fixpoint join (sep : str) (l : list str) : str :=
  match l with
  | [] => []
  | x :: l' =>
      match l' with
      | [] => x
      | _ => x ++ sep ++ join sep l'
      end
  end.

Fixpoint startswith (s t : str) {struct t} : bool :=
  match t, s with
  | [], _ => true
  | _ :: _, [] => false
  | a :: t', b :: s' => (a =? b) && startswith s' t'
  end.

(** [t in s]: [t] occurs in [s] as a substring. *)
Fixpoint contains (s t : str) : bool :=
  startswith s t ||
  match s with
  | [] => false
  | _ :: s' => contains s' t
  end.

(** [a < b] on text: lexicographic on code points. *)
Fixpoint str_ltb (a b : str) : bool :=
  match a, b with
  | _, [] => false
  | [], _ :: _ => true
  | x :: a', y :: b' =>
      if x <? y then true else if y <? x then false else str_ltb a' b'
  end.

(** *** Sorting

    [sorted(l, key=key, reverse=reverse)] and [l.sort(key=..., reverse=...)]:
    the keys are computed first, once per element, and an exception of the
    key function propagates; the elements are then ordered by [<] on their
    keys only, and the sort is stable.  With [reverse=True] the list is
    reversed, sorted, and reversed again, which keeps elements with equal
    keys in their original order.  A comparison that raises makes the whole
    call raise: the model compares as a straight insertion does, which is
    Python's outcome whenever every two keys of the list are comparable. *)
Section sorting.
Context {A K : Type}.
Variable lt : K → K → result bool.

Fixpoint insert_by (x : K * A) (l : list (K * A)) : result (list (K * A)) :=
  match l with
  | [] => Ok [x]
  | y :: l' =>
      b ← lt (fst y) (fst x);
      if b : bool then r ← insert_by x l'; Ok (y :: r)
      else Ok (x :: y :: l')
  end.

Fixpoint sort_decorated (l : list (K * A)) : result (list (K * A)) :=
  match l with
  | [] => Ok []
  | x :: l' => r ← sort_decorated l'; insert_by x r
  end.

Definition sorted (key : A → result K) (reverse_flag : bool) (l : list A)
  : result (list A) :=
  dl ← mapM (λ x, k ← key x; Ok (k, x)) l;
  sl ← sort_decorated (if reverse_flag then reverse dl else dl);
  Ok (snd <$> (if reverse_flag then reverse sl else sl)).
End sorting.

(** The same sort when no comparison can raise. *)
Section pure_sorting.
Context {A K : Type}.
Variable ltb : K → K → bool.
Variable key : A → K.

Fixpoint insert_pure (x : A) (l : list A) : list A :=
  match l with
  | [] => [x]
  | y :: l' =>
      if ltb (key y) (key x) then y :: insert_pure x l' else x :: y :: l'
  end.

Fixpoint sort_pure (l : list A) : list A :=
  match l with
  | [] => []
  | x :: l' => insert_pure x (sort_pure l')
  end.

Definition sorted_pure (reverse_flag : bool) (l : list A) : list A :=
  if reverse_flag then reverse (sort_pure (reverse l)) else sort_pure l.
End pure_sorting.

End Py.

(** ** Stored values and documents *)

(** A date/time value, known by the text its [isoformat()] returns. *)
Record datetime : Type := { isoformat : str }.

(** A store-assigned identifier, known by the text [str] gives for it. *)
Record ObjectId : Type := { oid_str : str }.

Global Instance datetime_eq_dec : EqDecision datetime.
Proof. solve_decision. Defined.
Global Instance ObjectId_eq_dec : EqDecision ObjectId.
Proof. solve_decision. Defined.

(** The kinds of value the schemas of [schemas.py] put in a document (text,
    flags, optional fields, lists of text, mappings of text), with the
    identifiers and timestamps the store adds. *)
Inductive value : Type :=
  | VNone
  | VBool (b : bool)
  | VStr (s : str)
  | VList (l : list str)
  | VDict (m : list (str * str))
  | VDate (d : datetime)
  | VOid (o : ObjectId).

Global Instance value_eq_dec : EqDecision value.
Proof. solve_decision. Defined.

(** A Python [dict] with text keys: the items in insertion order, each key
    once. *)
Abbreviation dict := (list (str * value)).

Definition keys (d : dict) : list str := fst <$> d.

(** [d.get(k)] *)
Fixpoint dict_get (d : dict) (k : str) : option value :=
  match d with
  | [] => None
  | (k', v) :: d' => if decide (k' = k) then Some v else dict_get d' k
  end.

(** [d[k] = v]: a key already present keeps its place. *)
Fixpoint dict_set (d : dict) (k : str) (v : value) : dict :=
  match d with
  | [] => [(k, v)]
  | (k', v') :: d' =>
      if decide (k' = k) then (k, v) :: d' else (k', v') :: dict_set d' k v
  end.

(** [bool(v)], the truth value [not v] negates. *)
Definition truthy (v : value) : bool :=
  match v with
  | VNone => false
  | VBool b => b
  | VStr s => negb (bool_decide (s = []))
  | VList l => negb (bool_decide (l = []))
  | VDict m => negb (bool_decide (m = []))
  | VDate _ => true
  | VOid _ => true
  end.

(** [hasattr(v, "isoformat")] and, when it holds, [v.isoformat()]. *)
Definition isoformat_of (v : value) : option str :=
  match v with
  | VDate d => Some (isoformat d)
  | _ => None
  end.

(** [a == b] on mappings does not look at the order of the items. *)
Fixpoint assoc_get (m : list (str * str)) (k : str) : option str :=
  match m with
  | [] => None
  | (k', v) :: m' => if decide (k' = k) then Some v else assoc_get m' k
  end.

Definition assoc_eqb (m1 m2 : list (str * str)) : bool :=
  bool_decide (length m1 = length m2)
  && forallb (λ kv, bool_decide (assoc_get m2 (fst kv) = Some (snd kv))) m1.

(** [a == b] *)
Definition value_eqb (a b : value) : bool :=
  match a, b with
  | VDict m1, VDict m2 => assoc_eqb m1 m2
  | _, _ => bool_decide (a = b)
  end.

(** [a < b] on lists of text. *)
Fixpoint list_ltb (a b : list str) : bool :=
  match a, b with
  | _, [] => false
  | [], _ :: _ => true
  | x :: a', y :: b' =>
      if bool_decide (x = y) then list_ltb a' b' else Py.str_ltb x y
  end.

(** [a < b]: defined between two texts, two flags, two lists, two
    identifiers; between values of different kinds, and on [None] and
    mappings, Python raises [TypeError].  The order of two date/time values
    is not modelled: [serialize_doc] leaves none in a document
    ([serialize_doc_no_date]), so the endpoints never compare them. *)
Definition value_lt (a b : value) : result bool :=
  match a, b with
  | VStr s1, VStr s2 => Ok (Py.str_ltb s1 s2)
  | VBool b1, VBool b2 => Ok (negb b1 && b2)
  | VList l1, VList l2 => Ok (list_ltb l1 l2)
  | VOid o1, VOid o2 => Ok (Py.str_ltb (oid_str o1) (oid_str o2))
  | _, _ => Raise TypeError
  end.

(** [a < b] on pairs [(flag, v)]: the first components decide unless they
    are equal; equal second components are never compared with [<]. *)
Definition pair_lt (a b : bool * value) : result bool :=
  if bool_decide (fst a = fst b) then
    if value_eqb (snd a) (snd b) then Ok false else value_lt (snd a) (snd b)
  else Ok (negb (fst a) && fst b).

(** ** The document store *)

(** Modelled from the spec: [database.py] ([db], [create_document],
    [get_documents]) is not among the sources.  The spec gives the store
    generic insert-one and find-all operations on named collections, and
    has every stored document receive a store-assigned unique identifier
    and a creation timestamp.  A [database] is a configured store handle:
    its collections, the identifier and timestamp it gives to its n-th
    insert, and what the driver answers to the two calls [test_database]
    makes ([inl msg]: the call raises an exception [e] with
    [str(e) = msg]). *)
Record database : Type := {
  db_collections : gmap str (list dict);
  db_inserted : nat;
  db_assign : nat → ObjectId * datetime;
  db_name : str + option str;
  db_list_collection_names : str + list str;
}.

(** Modelled from the spec: [get_documents(col)], find-all on a named
    collection. *)
Definition get_documents (db : database) (col : str) : list dict :=
  default [] (db_collections db !! col).

(** Modelled from the spec: [create_document(col, data)], insert-one; the
    stored document carries the store-assigned [_id] and [created_at], and
    the identifier is returned as text. *)
Definition create_document (db : database) (col : str) (data : dict)
  : database * str :=
  let '(oid, now) := db_assign db (db_inserted db) in
  let doc := dict_set (dict_set data (lit "created_at") (VDate now))
                      (lit "_id") (VOid oid) in
  ({| db_collections :=
        <[col := get_documents db col ++ [doc]]> (db_collections db);
      db_inserted := S (db_inserted db);
      db_assign := db_assign db;
      db_name := db_name db;
      db_list_collection_names := db_list_collection_names db |},
   oid_str oid).

(** ** [main.py] *)

Section main.

(** Python's [str()] on the kinds of value where it is not spelled out in
    [py_str] (containers and date/time values), and [str.lower()]. *)
Variable str_of : value → str.
Variable lower : str → str.

(** [str(v)] *)
Definition py_str (v : value) : str :=
  match v with
  | VNone => lit "None"
  | VBool true => lit "True"
  | VBool false => lit "False"
  | VStr s => s
  | VOid o => oid_str o
  | _ => str_of v
  end.

Definition serialize_item (out : dict) (kv : str * value) : dict :=
  let '(k, v) := kv in
  if decide (k = lit "_id") then dict_set out (lit "id") (VStr (py_str v))
  else match isoformat_of v with
       | Some iso => dict_set out k (VStr iso)
       | None => dict_set out k v
       end.

Definition serialize_doc (doc : dict) : dict :=
  foldl serialize_item [] doc.

(** The sort key of [list_blog_posts] and [list_case_studies]:
    [lambda x: x.get("created_at", "")]. *)
Definition created_key (x : dict) : value :=
  default (VStr []) (dict_get x (lit "created_at")).

Definition list_blog_posts (db : database) : result (list dict) :=
  let docs := get_documents db (lit "blogpost") in
  let docs := serialize_doc <$> docs in
  Py.sorted value_lt (λ x, Ok (created_key x)) true docs.

Definition list_case_studies (db : database) : result (list dict) :=
  let docs := get_documents db (lit "casestudy") in
  let docs := serialize_doc <$> docs in
  Py.sorted value_lt (λ x, Ok (created_key x)) true docs.

(** The sort key of [list_projects]:
    [lambda x: (not x.get("featured", False), x.get("created_at", ""))]. *)
Definition project_key (x : dict) : bool * value :=
  (negb (truthy (default (VBool false) (dict_get x (lit "featured")))),
   created_key x).

Definition list_projects (db : database) : result (list dict) :=
  let docs := get_documents db (lit "project") in
  let docs := serialize_doc <$> docs in
  Py.sorted pair_lt (λ x, Ok (project_key x)) false docs.

(** *** [test_database]

    The body is a sequence of statements that update the [response]
    dictionary in place and may raise; what was assigned before an
    exception stays assigned.  An exception is carried by its message
    [str(e)]. *)
Definition stmt : Type := dict → dict * option str.

Definition assign (k : str) (v : value) : stmt :=
  λ response, (dict_set response k v, None).

Definition and_then (a b : stmt) : stmt :=
  λ response,
    match a response with
    | (response', None) => b response'
    | (response', Some e) => (response', Some e)
    end.

(** Evaluate an expression that may raise, then go on with its value. *)
Definition eval {A : Type} (x : str + A) (k : A → stmt) : stmt :=
  λ response,
    match x with
    | inl e => (response, Some e)
    | inr a => k a response
    end.

(** [try: body  except Exception as e: handler] *)
Definition try_except (body : stmt) (handler : str → stmt) : stmt :=
  λ response,
    match body response with
    | (response', None) => (response', None)
    | (response', Some e) => handler e response'
    end.

Definition check_mark : str := [9989].
Definition cross_mark : str := [10060].
Definition warning_sign : str := [9888; 65039].

Definition initial_response : dict :=
  [ (lit "backend", VStr (check_mark ++ lit " Running"));
    (lit "database", VStr (cross_mark ++ lit " Not Available"));
    (lit "database_url", VNone);
    (lit "database_name", VNone);
    (lit "connection_status", VStr (lit "Not Connected"));
    (lit "collections", VList []) ].

(** [os.getenv] reads [environ]; [db] is [None] or a store handle.  The
    result is [inr response] when the handler returns and [inl msg] when an
    exception leaves it. *)
Definition test_database (environ : str → option str) (db : option database)
  : str + dict :=
  let body :=
    try_except
      (match db with
       | Some d =>
           and_then (assign (lit "database") (VStr (check_mark ++ lit " Available")))
          (and_then (assign (lit "database_url")
                       (if truthy (default VNone (VStr <$> environ (lit "DATABASE_URL")))
                        then VStr (check_mark ++ lit " Set")
                        else VStr (cross_mark ++ lit " Not Set")))
          (and_then (eval (db_name d) (λ name,
                       assign (lit "database_name")
                         (VStr (default (check_mark ++ lit " Connected") name))))
          (and_then (assign (lit "connection_status") (VStr (lit "Connected")))
             (try_except
                (eval (db_list_collection_names d) (λ collections,
                   and_then (assign (lit "collections") (VList (take 10 collections)))
                            (assign (lit "database")
                               (VStr (check_mark ++ lit " Connected & Working")))))
                (λ e, assign (lit "database")
                        (VStr (warning_sign ++ lit "  Connected but Error: "
                               ++ take 50 e)))))))
       | None =>
           assign (lit "database")
             (VStr (warning_sign ++ lit "  Available but not initialized"))
       end)
      (λ e, assign (lit "database")
              (VStr (cross_mark ++ lit " Error: " ++ take 50 e)))
  in
  match body initial_response with
  | (response, None) => inr response
  | (_, Some e) => inl e
  end.

(** *** [assistant_chat] *)

Record ChatRequest : Type := { message : str }.

(** [Chat(role=..., message=...)] of [schemas.py], as the fields handed to
    [create_document]. *)
Definition Chat (role msg : str) : dict :=
  [ (lit "role", VStr role); (lit "message", VStr msg) ].

Definition separator : str := lit " " ++ [8226] ++ lit " ".

(** One turn of [for f in fields]. *)
Definition snippet_step (s : dict) (snippet_parts : list str) (f : str)
  : list str :=
  match dict_get s f with
  | Some (VList val) =>
      snippet_parts ++ [Py.join (lit ", ") ((λ x, py_str (VStr x)) <$> val)]
  | Some (VDict val) =>
      snippet_parts ++
      [Py.join (lit ", ")
         ((λ kv, py_str (VStr (fst kv)) ++ lit ": " ++ py_str (VStr (snd kv)))
            <$> val)]
  | Some (VStr val) => snippet_parts ++ [val]
  | _ => snippet_parts
  end.

(** One turn of [for d in docs]. *)
Definition fetch_step (fields : list str) (items : list dict) (d : dict)
  : list dict :=
  let s := serialize_doc d in
  let snippet_parts := foldl (snippet_step s) [] fields in
  let s :=
    dict_set s (lit "snippet")
      (VStr (Py.join separator
               (take 200 <$> filter (λ p, p ≠ []) snippet_parts))) in
  items ++ [s].

Definition fetch_titles (db : database) (col : str) (fields : list str)
  : list dict :=
  foldl (fetch_step fields) [] (get_documents db col).

Definition corpus_of (db : database) : list dict :=
  let blogs :=
    take 10 (fetch_titles db (lit "blogpost")
               [lit "title"; lit "tags"; lit "content"]) in
  let cases :=
    take 10 (fetch_titles db (lit "casestudy")
               [lit "title"; lit "summary"; lit "impact"]) in
  let projs :=
    take 10 (fetch_titles db (lit "project")
               [lit "title"; lit "description"; lit "tech_stack"]) in
  blogs ++ cases ++ projs.

(** [{t.lower() for t in user_msg.split() if len(t) > 2}] *)
Definition tokens_of (user_msg : str) : gset str :=
  list_to_set (lower <$> filter (λ t, (2 < length t)%nat) (Py.split user_msg)).

(** [a + b] on text; any other operand raises [TypeError]. *)
Definition str_add (a b : value) : result value :=
  match a, b with
  | VStr x, VStr y => Ok (VStr (x ++ y))
  | _, _ => Raise TypeError
  end.

Definition score (tokens : gset str) (item : dict) : result nat :=
  t1 ← str_add (default (VStr []) (dict_get item (lit "title"))) (VStr (lit " "));
  t2 ← str_add t1 (default (VStr []) (dict_get item (lit "snippet")));
  match t2 with
  | VStr joined =>
      let text := lower joined in
      Ok (size (filter (λ t, Py.contains text t = true) tokens))
  | _ => Raise TypeError
  end.

Definition nat_lt (a b : nat) : result bool := Ok (a <? b)%nat.

(** [sorted(corpus, key=score, reverse=True)[:3]] *)
Definition best_of (tokens : gset str) (corpus : list dict)
  : result (list dict) :=
  sl ← Py.sorted nat_lt (score tokens) true corpus;
  Ok (take 3 sl).

Definition generic_reply : str :=
  lit "Thanks for reaching out! I build production-grade web apps, AI features, and clean UI systems. "
  ++ lit "Ask about projects, case studies, or share your idea and I" ++ [8217]
  ++ lit "ll outline an approach.".

Definition highlight_line (item : dict) : str :=
  lit "- "
  ++ py_str (default (VStr (lit "Untitled")) (dict_get item (lit "title")))
  ++ lit ": "
  ++ py_str (default (VStr []) (dict_get item (lit "snippet"))).

Definition highlights_header : str :=
  lit "Here are some highlights that match what you asked:".

Definition closing_line : str :=
  lit "Want a deeper dive or a quick estimate? I can outline a plan step-by-step.".

Definition reply_of (best : list dict) : str :=
  match best with
  | [] => generic_reply
  | _ =>
      let lines := [highlights_header] in
      let lines := foldl (λ lines item, lines ++ [highlight_line item]) lines best in
      let lines := lines ++ [closing_line] in
      Py.join [10] lines
  end.

(** The handler: the store after the call, and the response body or the
    exception raised. *)
Definition assistant_chat (db : database) (req : ChatRequest)
  : database * result dict :=
  let user_msg := Py.strip (message req) in
  if bool_decide (user_msg = []) then
    (db, Raise (HTTPException 400 (lit "Empty message")))
  else
    let db := fst (create_document db (lit "chat") (Chat (lit "user") user_msg)) in
    let corpus := corpus_of db in
    let tokens := tokens_of user_msg in
    match best_of tokens corpus with
    | Raise e => (db, Raise e)
    | Ok best =>
        let reply := reply_of best in
        let db :=
          fst (create_document db (lit "chat") (Chat (lit "assistant") reply)) in
        (db, Ok [(lit "reply", VStr reply)])
    end.

End main.

(** ** The vocabulary of the properties *)

(** [x] may stand before [y] in a list sorted ascending by [key]: [y]'s key
    is not below [x]'s. *)
Definition not_after {A K : Type} (ltb : K → K → bool) (key : A → K)
  (x y : A) : Prop :=
  ltb (key y) (key x) = false.

(** [out] is [input] sorted stably: the same elements, any two in the order
    [before], and those with one [key] in the order they had in [input]. *)
Definition stably_sorted {A K : Type} `{EqDecision K}
  (before : A → A → Prop) (key : A → K) (input out : list A) : Prop :=
  out ≡ₚ input
  ∧ StronglySorted before out
  ∧ ∀ k, filter (λ x, key x = k) out = filter (λ x, key x = k) input.

(** [a <= b] on text. *)
Definition str_leb (a b : str) : bool := negb (Py.str_ltb b a).

(** [<] on pairs of a flag and a text, first component first. *)
Definition flag_text_ltb (a b : bool * str) : bool :=
  if bool_decide (fst a = fst b) then Py.str_ltb (snd a) (snd b)
  else negb (fst a) && fst b.

(** [t] occurs in [s] as a substring. *)
Definition substring (t s : str) : Prop := ∃ a b, s = a ++ t ++ b.

Section statements.

Variable str_of : value → str.
Variable lower : str → str.

(** What serialization does to one value that is not under [_id]: a
    date/time value becomes its ISO text, any other value is kept. *)
Definition serialize_value (v : value) : value :=
  match v with
  | VDate d => VStr (isoformat d)
  | _ => v
  end.

(** What serialization does to one item of a document. *)
Definition serialize_entry (kv : str * value) : str * value :=
  if decide (fst kv = lit "_id") then (lit "id", VStr (py_str str_of (snd kv)))
  else (fst kv, serialize_value (snd kv)).

(** [out] serializes [doc] as announced: the identifier under [_id] is
    found as text under [id], and every other key of [doc] is found in
    [out] with its value, a date/time value as its ISO text. *)
Definition faithful_serialization (doc out : dict) : Prop :=
  (∀ v, dict_get doc (lit "_id") = Some v →
        dict_get out (lit "id") = Some (VStr (py_str str_of v)))
  ∧ (∀ k v, k ≠ lit "_id" → dict_get doc k = Some v →
            dict_get out k = Some (serialize_value v)).

(** The document's [created_at] is a date/time value, a text, or missing. *)
Definition has_timestamp (d : dict) : bool :=
  match dict_get d (lit "created_at") with
  | None | Some (VStr _) | Some (VDate _) => true
  | Some _ => false
  end.

(** A stored document as the listing endpoints expect it: a dictionary
    (each key once) whose [created_at] is a timestamp or missing. *)
Definition timestamped (d : dict) : Prop :=
  NoDup (keys d) ∧ has_timestamp d = true.

Global Instance timestamped_dec (d : dict) : Decision (timestamped d).
Proof. unfold timestamped. apply _. Defined.

(** The serialized creation timestamp, the empty text when missing. *)
Definition created_text (x : dict) : str :=
  match dict_get x (lit "created_at") with
  | Some (VStr s) => s
  | _ => []
  end.

(** The [featured] flag, false when missing. *)
Definition featured (x : dict) : bool :=
  truthy (default (VBool false) (dict_get x (lit "featured"))).

(** What [GET /projects] ranks a serialized document by. *)
Definition project_rank (x : dict) : bool * str :=
  (negb (featured x), created_text x).

(** The order of [GET /projects]: featured before not featured, and within
    one group ascending by creation timestamp. *)
Definition project_before (x y : dict) : Prop :=
  (featured x = true ∧ featured y = false)
  ∨ (featured x = featured y
     ∧ str_leb (created_text x) (created_text y) = true).

(** The order of [GET /blog] and [GET /case-studies]: descending by
    creation timestamp, compared as text. *)
Definition newest_first (x y : dict) : Prop :=
  str_leb (created_text y) (created_text x) = true.

(** The text a field contributes to a snippet, if any. *)
Definition field_text (s : dict) (f : str) : option str :=
  match dict_get s f with
  | Some (VList val) => Some (Py.join (lit ", ") val)
  | Some (VDict val) =>
      Some (Py.join (lit ", ") ((λ kv, fst kv ++ lit ": " ++ snd kv) <$> val))
  | Some (VStr val) => Some val
  | _ => None
  end.

(** The parts of a snippet: the texts of the fields, in order, the empty
    ones dropped, each cut to 200 characters. *)
Definition snippet_parts_of (fields : list str) (s : dict) : list str :=
  take 200 <$> filter (λ p, p ≠ []) (omap (field_text s) fields).

(** A corpus item: the serialized document with its snippet. *)
Definition item_of (fields : list str) (d : dict) : dict :=
  let s := serialize_doc str_of d in
  dict_set s (lit "snippet")
    (VStr (Py.join separator (snippet_parts_of fields s))).

(** The item's title is a text, or the item has none. *)
Definition title_is_text (item : dict) : bool :=
  match dict_get item (lit "title") with
  | None | Some (VStr _) => true
  | Some _ => false
  end.

(** A stored document whose [title] is a text or a date/time value, or
    missing. *)
Definition titled (d : dict) : Prop :=
  NoDup (keys d)
  ∧ match dict_get d (lit "title") with
    | None | Some (VStr _) | Some (VDate _) => True
    | Some _ => False
    end.

(** The text an item is matched against: its title, a space, its snippet,
    lowercased. *)
Definition item_text (item : dict) : str :=
  let title :=
    match dict_get item (lit "title") with Some (VStr s) => s | _ => [] end in
  let snippet :=
    match dict_get item (lit "snippet") with Some (VStr s) => s | _ => [] end in
  lower (title ++ lit " " ++ snippet).

(** The number of distinct tokens that occur in the item's text. *)
Definition score_of (tokens : gset str) (item : dict) : nat :=
  size (filter (λ t, Py.contains (item_text item) t = true) tokens).


(** The order of the ranking: higher score first. *)
Definition higher_score (tokens : gset str) (x y : dict) : Prop :=
  (score_of tokens y ≤ score_of tokens x)%nat.

(** A message that is empty or consists of whitespace only. *)
Definition blank (msg : str) : bool := forallb Py.isspace msg.

End statements.

(** ** A sample store

    Three projects with mixed [featured] flags, two blog posts (one without
    [created_at]), one case study; [str()] of the sample's date/time values
    and ASCII lowercasing stand in for the two built-ins left open. *)

Definition sample_str_of (v : value) : str :=
  match v with
  | VDate d => isoformat d
  | _ => []
  end.

Definition ascii_lower (s : str) : str :=
  (λ c, if (65 <=? c) && (c <=? 90) then c + 32 else c) <$> s.

Definition sample_oid (n : string) : value := VOid {| oid_str := lit n |}.
Definition sample_date (n : string) : value := VDate {| isoformat := lit n |}.

Definition sample_projects : list dict :=
  [ [ (lit "_id", sample_oid "65a1");
      (lit "title", VStr (lit "Rust Parser"));
      (lit "description", VStr (lit "A fast parser"));
      (lit "tech_stack", VList [lit "rust"; lit "nom"]);
      (lit "repo_url", VNone);
      (lit "featured", VBool false);
      (lit "created_at", sample_date "2024-01-02T10:00:00") ];
    [ (lit "_id", sample_oid "65a2");
      (lit "title", VStr (lit "Web Shop"));
      (lit "description", VStr (lit "A small shop"));
      (lit "tech_stack", VList [lit "react"]);
      (lit "featured", VBool true);
      (lit "created_at", sample_date "2024-01-03T10:00:00") ];
    [ (lit "_id", sample_oid "65a3");
      (lit "title", VStr (lit "Blog Engine"));
      (lit "description", VStr (lit "Static pages"));
      (lit "tech_stack", VList []);
      (lit "featured", VBool false);
      (lit "created_at", sample_date "2024-01-01T10:00:00") ] ].

Definition sample_blog_posts : list dict :=
  [ [ (lit "_id", sample_oid "65b1");
      (lit "title", VStr (lit "Parsing in Rust"));
      (lit "content", VStr (lit "Combinators all the way"));
      (lit "tags", VList [lit "rust"; lit "parsing"]);
      (lit "created_at", sample_date "2024-02-01T08:00:00") ];
    [ (lit "_id", sample_oid "65b2");
      (lit "title", VStr (lit "Hello"));
      (lit "content", VStr (lit "First post"));
      (lit "tags", VList []) ];
    [ (lit "_id", sample_oid "65b3");
      (lit "title", VStr (lit "Shipping"));
      (lit "content", VStr (lit "How the shop went live"));
      (lit "tags", VList [lit "web"]);
      (lit "created_at", sample_date "2024-03-01T08:00:00") ] ].

Definition sample_case_studies : list dict :=
  [ [ (lit "_id", sample_oid "65c1");
      (lit "title", VStr (lit "Checkout redesign"));
      (lit "summary", VStr (lit "Fewer steps"));
      (lit "problem", VStr (lit "Drop-off"));
      (lit "solution", VStr (lit "One page"));
      (lit "impact", VStr (lit "More orders"));
      (lit "links", VDict [(lit "demo", lit "https://example.org/")]);
      (lit "created_at", sample_date "2024-02-10T08:00:00") ] ].

Definition sample_db : database :=
  {| db_collections :=
       {[ lit "project" := sample_projects;
          lit "blogpost" := sample_blog_posts;
          lit "casestudy" := sample_case_studies ]};
     db_inserted := 0;
     db_assign := λ n,
       ({| oid_str := lit "66f" ++ replicate n 48 |},
        {| isoformat := lit "2024-04-01T00:00:00" |});
     db_name := inr (Some (lit "portfolio"));
     db_list_collection_names :=
       inr [lit "project"; lit "blogpost"; lit "casestudy"] |}.

(** The titles of a listing, for reading results off. *)
Definition titles_of (r : result (list dict)) : list (option value) :=
  match r with
  | Ok docs => (λ x, dict_get x (lit "title")) <$> docs
  | Raise _ => []
  end.

Definition sample_request : ChatRequest :=
  {| message := lit "  tell me about the RUST parser " |}.

Definition blank_request : ChatRequest := {| message := lit "   " |}.

(** A blog collection in which one [created_at] is a flag and one is
    missing: the keys [True] and the empty text cannot be compared. *)
Definition unordered_db : database :=
  {| db_collections :=
       {[ lit "blogpost" :=
            [ [ (lit "title", VStr (lit "A")); (lit "created_at", VBool true) ];
              [ (lit "title", VStr (lit "B")) ] ] ]};
     db_inserted := 0;
     db_assign := db_assign sample_db;
     db_name := inr None;
     db_list_collection_names := inr [] |}.

(** A document that has a field [id] of its own besides the store's
    [_id]. *)
Definition shadowing_doc : dict :=
  [ (lit "_id", sample_oid "65a1"); (lit "id", VStr (lit "legacy-7")) ].

(** ** The creation endpoints *)

(** The validated request bodies of [schemas.py].  A URL is known by its
    text. *)
Record BlogPost : Type := {
  bp_title : str;
  bp_content : str;
  bp_tags : list str;
  bp_cover_url : option str;
  bp_author : option str;
}.

Record CaseStudy : Type := {
  cs_title : str;
  cs_summary : str;
  cs_problem : str;
  cs_solution : str;
  cs_impact : str;
  cs_images : list str;
  cs_links : list (str * str);
}.

Record Project : Type := {
  pj_title : str;
  pj_description : str;
  pj_tech_stack : list str;
  pj_repo_url : option str;
  pj_live_url : option str;
  pj_featured : bool;
}.

(** An optional text field: the text, or [None]. *)
Definition optional (o : option str) : value :=
  match o with
  | Some s => VStr s
  | None => VNone
  end.

(** The fields of a model, as handed to [create_document]. *)
Definition BlogPost_fields (post : BlogPost) : dict :=
  [ (lit "title", VStr (bp_title post));
    (lit "content", VStr (bp_content post));
    (lit "tags", VList (bp_tags post));
    (lit "cover_url", optional (bp_cover_url post));
    (lit "author", optional (bp_author post)) ].

Definition CaseStudy_fields (case : CaseStudy) : dict :=
  [ (lit "title", VStr (cs_title case));
    (lit "summary", VStr (cs_summary case));
    (lit "problem", VStr (cs_problem case));
    (lit "solution", VStr (cs_solution case));
    (lit "impact", VStr (cs_impact case));
    (lit "images", VList (cs_images case));
    (lit "links", VDict (cs_links case)) ].

Definition Project_fields (proj : Project) : dict :=
  [ (lit "title", VStr (pj_title proj));
    (lit "description", VStr (pj_description proj));
    (lit "tech_stack", VList (pj_tech_stack proj));
    (lit "repo_url", optional (pj_repo_url proj));
    (lit "live_url", optional (pj_live_url proj));
    (lit "featured", VBool (pj_featured proj)) ].

(** The handlers: the store after the call and the response body
    [{"id": ...}]. *)
Definition create_blog_post (db : database) (post : BlogPost)
  : database * dict :=
  let '(db, post_id) := create_document db (lit "blogpost") (BlogPost_fields post) in
  (db, [(lit "id", VStr post_id)]).

Definition create_case_study (db : database) (case : CaseStudy)
  : database * dict :=
  let '(db, cid) := create_document db (lit "casestudy") (CaseStudy_fields case) in
  (db, [(lit "id", VStr cid)]).

Definition create_project (db : database) (proj : Project)
  : database * dict :=
  let '(db, pid) := create_document db (lit "project") (Project_fields proj) in
  (db, [(lit "id", VStr pid)]).

(** ** More sample data *)

(** A store whose only project has [None] for a title. *)
Definition untitled_db : database :=
  {| db_collections :=
       {[ lit "project" :=
            [ [ (lit "_id", sample_oid "65d1"); (lit "title", VNone);
                (lit "description", VStr (lit "Draft")) ] ] ]};
     db_inserted := 0;
     db_assign := db_assign sample_db;
     db_name := inr None;
     db_list_collection_names := inr [] |}.

(** A store with [n] copies of one blog post. *)
Definition crowded_db (n : nat) : database :=
  {| db_collections :=
       {[ lit "blogpost" := replicate n (hd [] sample_blog_posts) ]};
     db_inserted := n;
     db_assign := db_assign sample_db;
     db_name := inr None;
     db_list_collection_names := inr [lit "blogpost"] |}.

Definition short_request : ChatRequest := {| message := lit " hi yo ? " |}.

(** An imported document: a field [id] of its own, then the store's [_id],
    and a timestamp. *)
Definition legacy_doc : dict :=
  [ (lit "id", VStr (lit "legacy-7"));
    (lit "_id", sample_oid "65e1");
    (lit "title", VStr (lit "Imported"));
    (lit "created_at", sample_date "2023-12-31T23:59:59") ].

Definition rust_request : ChatRequest := {| message := lit "rust parser" |}.

Definition repeated_request : ChatRequest :=
  {| message := lit "  parser   rust parser " |}.

Definition sample_post : BlogPost :=
  {| bp_title := lit "Release notes";
     bp_content := lit "What changed";
     bp_tags := [lit "news"];
     bp_cover_url := None;
     bp_author := Some (lit "Ada") |}.

Definition sample_case : CaseStudy :=
  {| cs_title := lit "Search";
     cs_summary := lit "Faster search";
     cs_problem := lit "Slow queries";
     cs_solution := lit "An index";
     cs_impact := lit "Half the latency";
     cs_images := [];
     cs_links := [] |}.

Definition sample_project : Project :=
  {| pj_title := lit "Dashboard";
     pj_description := lit "Charts";
     pj_tech_stack := [lit "vue"];
     pj_repo_url := None;
     pj_live_url := None;
     pj_featured := true |}.

(** ** Facts about the built-ins *)

Section text_facts.

Lemma lstrip_nil_iff (s : str) :
  Py.lstrip s = [] ↔ forallb Py.isspace s = true.
Proof.
  induction s as [|c s IH]; simpl; [done|].
  destruct (Py.isspace c); simpl; [exact IH|]. split; discriminate.
Qed.

Lemma forallb_reverse {A} (f : A → bool) (l : list A) :
  forallb f (reverse l) = forallb f l.
Proof.
  induction l as [|x l IH]; [done|].
  rewrite reverse_cons, forallb_app, IH. simpl.
  rewrite andb_true_r. apply andb_comm.
Qed.

Lemma lstrip_head (s : str) c rest :
  Py.lstrip s = c :: rest → Py.isspace c = false.
Proof.
  induction s as [|x s IH]; simpl; [discriminate|].
  destruct (Py.isspace x) eqn:E; [exact IH|].
  intros [= <- _]. exact E.
Qed.

Lemma lstrip_suffix (s : str) : ∃ pre, s = pre ++ Py.lstrip s.
Proof.
  induction s as [|x s [pre IH]]; simpl; [by exists []|].
  destruct (Py.isspace x).
  - exists (x :: pre). simpl. by f_equal.
  - by exists [].
Qed.

Lemma strip_nil_iff (s : str) :
  Py.strip s = [] ↔ forallb Py.isspace s = true.
Proof.
  unfold Py.strip, Py.rstrip. rewrite <- lstrip_nil_iff.
  split.
  - intros H. apply (f_equal reverse) in H.
    rewrite reverse_involutive in H. simpl in H.
    apply lstrip_nil_iff in H. rewrite forallb_reverse in H.
    destruct (Py.lstrip s) as [|c rest] eqn:E; [done|].
    apply lstrip_head in E. simpl in H. rewrite E in H. discriminate.
  - intros ->. done.
Qed.

(** The stripped text neither begins nor ends with whitespace. *)
Lemma strip_prefix_lstrip (s : str) : ∃ post, Py.lstrip s = Py.strip s ++ post.
Proof.
  unfold Py.strip, Py.rstrip.
  destruct (lstrip_suffix (reverse (Py.lstrip s))) as [pre Hpre].
  exists (reverse pre). rewrite <- reverse_app, <- Hpre.
  by rewrite reverse_involutive.
Qed.

Lemma strip_first (s : str) c rest :
  Py.strip s = c :: rest → Py.isspace c = false.
Proof.
  intros H. destruct (strip_prefix_lstrip s) as [post Hpost].
  rewrite H in Hpost. simpl in Hpost. by apply lstrip_head in Hpost.
Qed.

Lemma strip_last (s : str) c :
  last (Py.strip s) = Some c → Py.isspace c = false.
Proof.
  unfold Py.strip, Py.rstrip. rewrite last_reverse.
  destruct (Py.lstrip (reverse (Py.lstrip s))) as [|x u] eqn:E; [done|].
  simpl. intros [= <-]. by apply lstrip_head in E.
Qed.

End text_facts.

(** ** Facts about the stable sort *)

Section sort_facts.
Context {A K : Type} `{EqDecision K}.
Variable ltb : K → K → bool.
Variable key : A → K.
Hypothesis ltb_irrefl : ∀ a, ltb a a = false.
Hypothesis ltb_asym : ∀ a b, ltb a b = true → ltb b a = false.
Hypothesis ltb_negtrans :
  ∀ a b c, ltb b a = false → ltb c b = false → ltb c a = false.

Lemma insert_pure_perm x l : Py.insert_pure ltb key x l ≡ₚ x :: l.
Proof.
  induction l as [|y l IH]; simpl; [done|].
  destruct (ltb (key y) (key x)); [|done].
  rewrite IH. apply Permutation_swap.
Qed.

Lemma sort_pure_perm l : Py.sort_pure ltb key l ≡ₚ l.
Proof.
  induction l as [|x l IH]; simpl; [done|].
  by rewrite insert_pure_perm, IH.
Qed.

Lemma insert_pure_sorted x l :
  StronglySorted (not_after ltb key) l →
  StronglySorted (not_after ltb key) (Py.insert_pure ltb key x l).
Proof.
  induction l as [|y l IH]; simpl; intros Hs.
  - repeat constructor.
  - apply StronglySorted_cons in Hs as [Hy Hl].
    destruct (ltb (key y) (key x)) eqn:E.
    + apply StronglySorted_cons. split; [|by apply IH].
      rewrite insert_pure_perm. constructor; [|done].
      unfold not_after. by apply ltb_asym.
    + apply StronglySorted_cons. split.
      * constructor; [exact E|].
        eapply Forall_impl; [exact Hy|]. intros z Hz.
        unfold not_after in *. by eapply ltb_negtrans.
      * by apply StronglySorted_cons.
Qed.

Lemma sort_pure_sorted l :
  StronglySorted (not_after ltb key) (Py.sort_pure ltb key l).
Proof.
  induction l as [|x l IH]; simpl; [constructor|].
  by apply insert_pure_sorted.
Qed.

Lemma insert_pure_filter k x l :
  filter (λ a, key a = k) (Py.insert_pure ltb key x l)
  = filter (λ a, key a = k) (x :: l).
Proof.
  induction l as [|y l IH]; simpl; [done|].
  destruct (ltb (key y) (key x)) eqn:E; [|done].
  rewrite (filter_cons _ y), IH, !(filter_cons _ x), !(filter_cons _ y).
  destruct (decide (key y = k)) as [Hy|Hy]; [|done].
  destruct (decide (key x = k)) as [Hx|Hx]; [|done].
  rewrite Hy, Hx, ltb_irrefl in E. discriminate.
Qed.

(** Elements with the same key keep their order. *)
Lemma sort_pure_stable k l :
  filter (λ a, key a = k) (Py.sort_pure ltb key l)
  = filter (λ a, key a = k) l.
Proof.
  induction l as [|x l IH]; simpl; [done|].
  by rewrite insert_pure_filter, !(filter_cons _ x), IH.
Qed.

Lemma StronglySorted_reverse (R : relation A) l :
  StronglySorted R l → StronglySorted (flip R) (reverse l).
Proof.
  induction 1 as [|x l Hl IH Hx]; [constructor|].
  rewrite reverse_cons. apply StronglySorted_app_2.
  - intros x1 x2 H1 ->%list_elem_of_singleton.
    rewrite Forall_forall in Hx. unfold flip. apply Hx.
    by apply elem_of_reverse.
  - done.
  - repeat constructor.
Qed.

Lemma sorted_pure_perm r l : Py.sorted_pure ltb key r l ≡ₚ l.
Proof.
  destruct r; simpl; [|apply sort_pure_perm].
  by rewrite reverse_Permutation, sort_pure_perm, reverse_Permutation.
Qed.

Lemma sorted_pure_ascending l :
  StronglySorted (not_after ltb key) (Py.sorted_pure ltb key false l).
Proof. apply sort_pure_sorted. Qed.

Lemma sorted_pure_descending l :
  StronglySorted (flip (not_after ltb key)) (Py.sorted_pure ltb key true l).
Proof. apply StronglySorted_reverse, sort_pure_sorted. Qed.

Lemma sorted_pure_stable r k l :
  filter (λ a, key a = k) (Py.sorted_pure ltb key r l)
  = filter (λ a, key a = k) l.
Proof.
  destruct r; simpl; [|apply sort_pure_stable].
  by rewrite filter_reverse, sort_pure_stable, filter_reverse,
    reverse_involutive.
Qed.

(** When every element has the same key the sort changes nothing. *)
Lemma sorted_pure_constant r k l :
  Forall (λ a, key a = k) l → Py.sorted_pure ltb key r l = l.
Proof.
  intros Hl.
  assert (∀ l' : list A, Forall (λ a, key a = k) l' →
            filter (λ a, key a = k) l' = l') as Hid.
  { induction 1 as [|x l' Hx _ IH]; [done|].
    by rewrite filter_cons_True, IH. }
  rewrite <- (Hid (Py.sorted_pure ltb key r l)).
  - by rewrite sorted_pure_stable, Hid.
  - by rewrite sorted_pure_perm.
Qed.
End sort_facts.

(** [sorted] returns the pure stable sort when the keys it computes can be
    compared: [dkey] is the key each element gets, and [<] on those keys
    agrees with the order [ltb] on [key]. *)
Section sort_bridge.
Context {A K K' : Type}.
Variable lt : K → K → result bool.
Variable keyR : A → result K.
Variable dkey : A → K.
Variable ltb : K' → K' → bool.
Variable key : A → K'.

Lemma mapM_decorate l :
  Forall (λ x, keyR x = Ok (dkey x)) l →
  mapM (λ x, k ← keyR x; Ok (k, x)) l = Ok ((λ x, (dkey x, x)) <$> l).
Proof.
  induction 1 as [|x l Hx _ IH]; [done|].
  cbn [mapM]. rewrite Hx, IH. done.
Qed.

Lemma insert_by_pure x l :
  Forall (λ y, lt (dkey y) (dkey x) = Ok (ltb (key y) (key x))) l →
  Py.insert_by lt (dkey x, x) ((λ x, (dkey x, x)) <$> l)
  = Ok ((λ x, (dkey x, x)) <$> Py.insert_pure ltb key x l).
Proof.
  induction 1 as [|y l Hy _ IH]; [done|].
  cbn [fmap list_fmap Py.insert_by Py.insert_pure fst]. rewrite Hy. cbn.
  destruct (ltb (key y) (key x)); [|done].
  cbn in IH. rewrite IH. done.
Qed.

Lemma sort_decorated_pure l :
  (∀ x y, x ∈ l → y ∈ l → lt (dkey x) (dkey y) = Ok (ltb (key x) (key y))) →
  Py.sort_decorated lt ((λ x, (dkey x, x)) <$> l)
  = Ok ((λ x, (dkey x, x)) <$> Py.sort_pure ltb key l).
Proof.
  induction l as [|x l IH]; intros Hl; [done|].
  cbn [fmap list_fmap Py.sort_decorated Py.sort_pure].
  cbn in IH. rewrite IH.
  - cbn. apply insert_by_pure. apply Forall_forall. intros y Hy.
    apply Hl; [|left].
    right. by rewrite <- (sort_pure_perm ltb key l).
  - intros a b Ha Hb. apply Hl; by right.
Qed.

Lemma sorted_is_sorted_pure r l :
  Forall (λ x, keyR x = Ok (dkey x)) l →
  (∀ x y, x ∈ l → y ∈ l → lt (dkey x) (dkey y) = Ok (ltb (key x) (key y))) →
  Py.sorted lt keyR r l = Ok (Py.sorted_pure ltb key r l).
Proof.
  intros Hk Hl. unfold Py.sorted. rewrite mapM_decorate by done. cbn.
  destruct r.
  - rewrite <- fmap_reverse, sort_decorated_pure.
    + cbn. rewrite <- fmap_reverse, <- list_fmap_compose.
      unfold Py.sorted_pure. f_equal. apply list_fmap_id.
    + intros x y Hx Hy. apply Hl; by apply elem_of_reverse.
  - rewrite sort_decorated_pure by done. cbn.
    rewrite <- list_fmap_compose. f_equal. apply list_fmap_id.
Qed.
End sort_bridge.

(** ** The orders on keys are strict weak orders *)

Lemma str_ltb_irrefl (a : str) : Py.str_ltb a a = false.
Proof.
  induction a as [|x a IH]; simpl; [done|].
  by rewrite N.ltb_irrefl.
Qed.

Lemma str_ltb_asym (a b : str) :
  Py.str_ltb a b = true → Py.str_ltb b a = false.
Proof.
  revert b. induction a as [|x a IH]; intros [|y b]; simpl; try done.
  destruct (N.ltb_spec x y), (N.ltb_spec y x); try done; try lia.
  apply IH.
Qed.

Lemma str_ltb_negtrans (a b c : str) :
  Py.str_ltb b a = false → Py.str_ltb c b = false → Py.str_ltb c a = false.
Proof.
  revert b c. induction a as [|x a IH]; intros [|y b] [|z c]; simpl;
    try done.
  destruct (N.ltb_spec y x), (N.ltb_spec x y), (N.ltb_spec z y),
    (N.ltb_spec y z), (N.ltb_spec z x), (N.ltb_spec x z);
    try done; try lia.
  apply IH.
Qed.

Lemma flag_text_ltb_irrefl a : flag_text_ltb a a = false.
Proof.
  unfold flag_text_ltb. rewrite bool_decide_eq_true_2 by done.
  apply str_ltb_irrefl.
Qed.

Lemma flag_text_ltb_asym a b :
  flag_text_ltb a b = true → flag_text_ltb b a = false.
Proof.
  destruct a as [[] s], b as [[] t]; unfold flag_text_ltb; simpl;
    try done; apply str_ltb_asym.
Qed.

Lemma flag_text_ltb_negtrans a b c :
  flag_text_ltb b a = false → flag_text_ltb c b = false →
  flag_text_ltb c a = false.
Proof.
  destruct a as [[] s], b as [[] t], c as [[] u]; unfold flag_text_ltb;
    simpl; try done; apply str_ltb_negtrans.
Qed.

Lemma nat_ltb_irrefl (a : nat) : (a <? a)%nat = false.
Proof. apply Nat.ltb_irrefl. Qed.

Lemma nat_ltb_asym (a b : nat) : (a <? b)%nat = true → (b <? a)%nat = false.
Proof. rewrite Nat.ltb_lt, Nat.ltb_ge. lia. Qed.

Lemma nat_ltb_negtrans (a b c : nat) :
  (b <? a)%nat = false → (c <? b)%nat = false → (c <? a)%nat = false.
Proof. rewrite !Nat.ltb_ge. lia. Qed.

(** ** Dictionaries *)

Lemma dict_get_set_eq (d : dict) k v : dict_get (dict_set d k v) k = Some v.
Proof.
  induction d as [|[k' v'] d IH]; simpl.
  - by rewrite decide_True.
  - destruct (decide (k' = k)); simpl.
    + by rewrite decide_True.
    + by rewrite decide_False.
Qed.

Lemma dict_get_set_ne (d : dict) k k' v :
  k ≠ k' → dict_get (dict_set d k v) k' = dict_get d k'.
Proof.
  intros Hne. induction d as [|[k0 v0] d IH]; simpl.
  - by rewrite decide_False.
  - destruct (decide (k0 = k)) as [->|]; simpl.
    + by rewrite !decide_False.
    + by rewrite IH.
Qed.

Lemma dict_get_None (d : dict) k : k ∉ keys d → dict_get d k = None.
Proof.
  induction d as [|[k' v'] d IH]; simpl; [done|].
  intros Hk. apply not_elem_of_cons in Hk as [Hne Hk].
  rewrite decide_False by done. by apply IH.
Qed.

Lemma dict_set_fresh (d : dict) k v :
  k ∉ keys d → dict_set d k v = d ++ [(k, v)].
Proof.
  induction d as [|[k' v'] d IH]; simpl; [done|].
  intros Hk. apply not_elem_of_cons in Hk as [Hne Hk].
  rewrite decide_False by done. by rewrite IH.
Qed.

(** ** [serialize_doc] *)

Section serialize_facts.

Variable str_of : value → str.

Lemma serialize_item_entry out kv :
  serialize_item str_of out kv
  = dict_set out (fst (serialize_entry str_of kv))
      (snd (serialize_entry str_of kv)).
Proof.
  destruct kv as [k v]. unfold serialize_item, serialize_entry. simpl.
  destruct (decide (k = lit "_id")); [done|].
  by destruct v.
Qed.

(** A key other than [_id] and [id] keeps its value, converted when it is a
    date/time value. *)
Lemma foldl_serialize_get out (d : dict) k :
  NoDup (keys d) → k ≠ lit "_id" → k ≠ lit "id" →
  dict_get (foldl (serialize_item str_of) out d) k
  = match dict_get d k with
    | Some v => Some (serialize_value v)
    | None => dict_get out k
    end.
Proof.
  intros Hnd Hk1 Hk2. revert out.
  induction d as [|[k' v'] d IH]; intros out; [done|].
  cbn [foldl dict_get].
  apply NoDup_cons in Hnd as [Hk' Hnd]. rewrite IH by done.
  rewrite serialize_item_entry. unfold serialize_entry. simpl.
  destruct (decide (k' = k)) as [->|Hne].
  - rewrite (dict_get_None d k) by done.
    rewrite decide_False by done. simpl. apply dict_get_set_eq.
  - destruct (dict_get d k); [done|].
    destruct (decide (k' = lit "_id")); simpl;
      by rewrite dict_get_set_ne.
Qed.

Lemma serialize_doc_get (d : dict) k :
  NoDup (keys d) → k ≠ lit "_id" → k ≠ lit "id" →
  dict_get (serialize_doc str_of d) k = serialize_value <$> dict_get d k.
Proof.
  intros. unfold serialize_doc. rewrite foldl_serialize_get by done.
  by destruct (dict_get d k).
Qed.

Lemma foldl_serialize_entries out (d : dict) :
  NoDup (fst ∘ serialize_entry str_of <$> d) →
  (∀ k, k ∈ keys out → k ∉ fst ∘ serialize_entry str_of <$> d) →
  foldl (serialize_item str_of) out d = out ++ (serialize_entry str_of <$> d).
Proof.
  revert out. induction d as [|kv d IH]; intros out Hnd Hout.
  - simpl. by rewrite app_nil_r.
  - cbn [foldl]. rewrite fmap_cons in Hnd. apply NoDup_cons in Hnd as [Hkv Hnd].
    rewrite serialize_item_entry, dict_set_fresh.
    + rewrite IH.
      * rewrite <- app_assoc. simpl. by destruct (serialize_entry str_of kv).
      * done.
      * intros k Hk. unfold keys in Hk. rewrite fmap_app in Hk.
        apply elem_of_app in Hk as [Hk|Hk].
        -- specialize (Hout k Hk). rewrite fmap_cons in Hout.
           by apply not_elem_of_cons in Hout as [_ ?].
        -- apply list_elem_of_singleton in Hk. simpl in Hk. by subst k.
    + intros Hk. specialize (Hout _ Hk). apply Hout. rewrite fmap_cons. left.
Qed.

(** Without a key [id] of its own, a document is serialized item by item,
    in place. *)
Lemma serialize_doc_entries (d : dict) :
  NoDup (keys d) → lit "id" ∉ keys d →
  serialize_doc str_of d = serialize_entry str_of <$> d.
Proof.
  intros Hnd Hid. unfold serialize_doc.
  rewrite foldl_serialize_entries; [done| |by intros k ?%elem_of_nil].
  assert ((fst ∘ serialize_entry str_of <$> d)
          = (λ k, if decide (k = lit "_id") then lit "id" else k) <$> keys d)
    as ->.
  { unfold keys. rewrite <- list_fmap_compose. apply list_fmap_ext.
    intros _ [k v] _. unfold serialize_entry. simpl.
    by destruct (decide (k = lit "_id")). }
  apply NoDup_fmap_2_strong; [|exact Hnd].
  intros x y Hx Hy. destruct (decide (x = lit "_id")), (decide (y = lit "_id"));
    intros Heq; subst; done.
Qed.

Lemma dict_get_entries_id (d : dict) :
  lit "id" ∉ keys d →
  dict_get (serialize_entry str_of <$> d) (lit "id")
  = (λ v, VStr (py_str str_of v)) <$> dict_get d (lit "_id").
Proof.
  induction d as [|[k w] d IH]; [done|].
  intros Hid. unfold keys in Hid. rewrite fmap_cons in Hid.
  apply not_elem_of_cons in Hid as [Hk Hid]. simpl in Hk.
  rewrite fmap_cons. unfold serialize_entry at 1. cbn [fst snd dict_get].
  destruct (decide (k = lit "_id")) as [->|Hne]; cbn [dict_get].
  - by rewrite decide_True.
  - rewrite decide_False by done. by apply IH.
Qed.

(** No date/time value is left in a serialized document. *)
Lemma serialize_doc_no_date (d : dict) k v :
  dict_get (serialize_doc str_of d) k = Some v → isoformat_of v = None.
Proof.
  unfold serialize_doc.
  assert (∀ out : dict,
            (∀ k v, dict_get out k = Some v → isoformat_of v = None) →
            ∀ k v, dict_get (foldl (serialize_item str_of) out d) k = Some v →
                   isoformat_of v = None) as H.
  { induction d as [|[k' v'] d IH]; intros out Hout; [done|].
    cbn [foldl]. apply IH. intros k0 v0. rewrite serialize_item_entry.
    set (e := serialize_entry str_of (k', v')).
    destruct (decide (fst e = k0)) as [<-|Hne].
    - rewrite dict_get_set_eq. intros [= <-]. subst e.
      unfold serialize_entry. simpl.
      destruct (decide (k' = lit "_id")); [done|]. by destruct v'.
    - rewrite dict_get_set_ne by done. apply Hout. }
  apply H. done.
Qed.

End serialize_facts.

(** ** The listing endpoints *)

Ltac lit_neq := let H := fresh in intros H; vm_compute in H; discriminate H.

(** Settle a decidable statement about closed data by evaluation. *)
Ltac by_deciding := apply (bool_decide_unpack _); vm_compute; exact I.

Lemma StronglySorted_weaken {A} (R S : relation A) l :
  (∀ x y, R x y → S x y) → StronglySorted R l → StronglySorted S l.
Proof.
  intros HRS. induction 1 as [|x l _ IH Hx]; constructor; [done|].
  eapply Forall_impl; [exact Hx|]. auto.
Qed.

Section listing_facts.

Variable str_of : value → str.

Lemma created_key_text (d : dict) :
  timestamped d →
  created_key (serialize_doc str_of d)
  = VStr (created_text (serialize_doc str_of d)).
Proof.
  intros [Hnd Hts]. unfold created_key, created_text, has_timestamp in *.
  rewrite serialize_doc_get; [|done|lit_neq|lit_neq].
  destruct (dict_get d (lit "created_at")) as [[]|]; simpl in *; done.
Qed.

Lemma serialized_created_key (docs : list dict) x :
  Forall timestamped docs → x ∈ serialize_doc str_of <$> docs →
  created_key x = VStr (created_text x).
Proof.
  intros Hdocs (d & -> & Hd)%list_elem_of_fmap.
  rewrite Forall_forall in Hdocs. by apply created_key_text, Hdocs.
Qed.

(** [docs.sort(key=lambda x: x.get("created_at", ""), reverse=True)] on
    serialized documents. *)
Lemma listing_newest_first (docs : list dict) :
  Forall timestamped docs →
  ∃ out,
    Py.sorted value_lt (λ x, Ok (created_key x)) true
      (serialize_doc str_of <$> docs) = Ok out
    ∧ stably_sorted newest_first created_text
        (serialize_doc str_of <$> docs) out.
Proof.
  intros Hdocs.
  exists (Py.sorted_pure Py.str_ltb created_text true
            (serialize_doc str_of <$> docs)).
  split; [|split; [|split]].
  - apply (sorted_is_sorted_pure _ _ created_key).
    + by apply Forall_forall.
    + intros x y Hx Hy.
      rewrite (serialized_created_key docs x), (serialized_created_key docs y)
        by done.
      done.
  - apply sorted_pure_perm.
  - eapply StronglySorted_weaken; [|apply sorted_pure_descending].
    + intros x y. unfold flip, not_after, newest_first, str_leb.
      by intros ->.
    + apply str_ltb_asym.
    + apply str_ltb_negtrans.
  - intros k. apply sorted_pure_stable, str_ltb_irrefl.
Qed.

Lemma project_rank_before x y :
  not_after flag_text_ltb project_rank x y → project_before x y.
Proof.
  unfold not_after, project_rank, flag_text_ltb, project_before, str_leb.
  simpl. destruct (featured x), (featured y); simpl; try done.
  - intros ->. by right.
  - by left.
  - intros ->. by right.
Qed.

(** [docs.sort(key=lambda x: (not x.get("featured", False),
    x.get("created_at", "")), reverse=False)] on serialized documents. *)
Lemma listing_featured_first (docs : list dict) :
  Forall timestamped docs →
  ∃ out,
    Py.sorted pair_lt (λ x, Ok (project_key x)) false
      (serialize_doc str_of <$> docs) = Ok out
    ∧ stably_sorted project_before project_rank
        (serialize_doc str_of <$> docs) out.
Proof.
  intros Hdocs.
  exists (Py.sorted_pure flag_text_ltb project_rank false
            (serialize_doc str_of <$> docs)).
  split; [|split; [|split]].
  - apply (sorted_is_sorted_pure _ _ project_key).
    + by apply Forall_forall.
    + intros x y Hx Hy. unfold project_key, pair_lt, flag_text_ltb. simpl.
      rewrite (serialized_created_key docs x), (serialized_created_key docs y)
        by done.
      fold (featured x) (featured y).
      destruct (bool_decide (negb (featured x) = negb (featured y))); [|done].
      simpl. destruct (bool_decide (VStr (created_text x) = VStr (created_text y)))
        eqn:E; [|done].
      apply bool_decide_eq_true in E. injection E as ->.
      by rewrite str_ltb_irrefl.
  - apply sorted_pure_perm.
  - eapply StronglySorted_weaken; [apply project_rank_before|].
    apply sorted_pure_ascending.
    + apply flag_text_ltb_asym.
    + apply flag_text_ltb_negtrans.
  - intros k. apply sorted_pure_stable, flag_text_ltb_irrefl.
Qed.

End listing_facts.

(** ** More facts about text *)

Lemma startswith_spec (s t : str) :
  Py.startswith s t = true ↔ ∃ b, s = t ++ b.
Proof.
  revert s. induction t as [|a t IH]; intros s; simpl.
  - split; [by exists s|done].
  - destruct s as [|c s]; simpl.
    + split; [done|]. by intros [b ?].
    + rewrite andb_true_iff, IH, N.eqb_eq. split.
      * intros [-> [b ->]]. by exists b.
      * intros [b [= -> ->]]. eauto.
Qed.

Lemma contains_spec (s t : str) :
  Py.contains s t = true ↔ substring t s.
Proof.
  unfold substring. induction s as [|c s IH]; simpl.
  - rewrite orb_false_r, startswith_spec. split.
    + intros [b ->]. by exists [], b.
    + intros (a & b & H). symmetry in H.
      apply app_eq_nil in H as [-> H]. exists b. done.
  - rewrite orb_true_iff, IH, startswith_spec. split.
    + intros [[b ->]|(a & b & ->)].
      * by exists [], b.
      * by exists (c :: a), b.
    + intros ([|c' a] & b & H); simpl in H.
      * left. by exists b.
      * right. injection H as -> ->. by exists a, b.
Qed.

(** The words of [split]: not empty, free of whitespace, and together the
    non-whitespace characters of the text. *)
Lemma split_from_words (cur s : str) :
  Forall (λ c, Py.isspace c = false) cur →
  Forall (λ w : str, w ≠ [] ∧ Forall (λ c, Py.isspace c = false) w)
    (Py.split_from cur s).
Proof.
  revert cur. induction s as [|c s IH]; intros cur Hcur; simpl.
  - destruct cur as [|x cur]; [constructor|].
    constructor; [|constructor]. split.
    + intros H. apply (f_equal length) in H.
      rewrite length_reverse in H. done.
    + by apply Forall_reverse.
  - destruct (Py.isspace c) eqn:E.
    + destruct cur as [|x cur]; [by apply IH|].
      constructor; [|by apply IH]. split.
      * intros H. apply (f_equal length) in H.
        rewrite length_reverse in H. done.
      * by apply Forall_reverse.
    + apply IH. by constructor.
Qed.

Lemma split_words (s : str) :
  Forall (λ w : str, w ≠ [] ∧ Forall (λ c, Py.isspace c = false) w)
    (Py.split s).
Proof. by apply split_from_words. Qed.

Lemma split_from_concat (cur s : str) :
  concat (Py.split_from cur s)
  = reverse cur ++ filter (λ c, Py.isspace c = false) s.
Proof.
  revert cur. induction s as [|c s IH]; intros cur; simpl.
  - destruct cur; simpl; by rewrite ?app_nil_r.
  - rewrite filter_cons. destruct (Py.isspace c) eqn:E.
    + rewrite decide_False by done.
      destruct cur as [|x cur]; simpl; by rewrite IH.
    + rewrite decide_True by done. rewrite IH, reverse_cons.
      by rewrite <- app_assoc.
Qed.

Lemma split_concat (s : str) :
  concat (Py.split s) = filter (λ c, Py.isspace c = false) s.
Proof. apply split_from_concat. Qed.

(** ** The store *)

Lemma get_documents_create_ne db col data col' :
  col ≠ col' →
  get_documents (fst (create_document db col data)) col' = get_documents db col'.
Proof.
  intros Hne. unfold create_document.
  destruct (db_assign db (db_inserted db)) as [oid now]. simpl.
  unfold get_documents at 1. simpl. by rewrite lookup_insert_ne.
Qed.

Lemma get_documents_create_eq db col data :
  ∃ oid now,
    get_documents (fst (create_document db col data)) col
    = get_documents db col
      ++ [dict_set (dict_set data (lit "created_at") (VDate now))
            (lit "_id") (VOid oid)].
Proof.
  unfold create_document.
  destruct (db_assign db (db_inserted db)) as [oid now]. exists oid, now.
  simpl. unfold get_documents at 1. simpl. by rewrite lookup_insert_eq.
Qed.

(** ** [assistant_chat] *)

Section chat_facts.

Variable str_of : value → str.
Variable lower : str → str.

Lemma foldl_snippet_step (s : dict) acc fields :
  foldl (snippet_step str_of s) acc fields = acc ++ omap (field_text s) fields.
Proof.
  assert (∀ l : list str, (λ x, py_str str_of (VStr x)) <$> l = l) as Hid.
  { induction l as [|x l IH]; simpl; [done|]. by f_equal. }
  revert acc. induction fields as [|f fields IH]; intros acc.
  - simpl. by rewrite app_nil_r.
  - cbn [foldl omap list_omap]. rewrite IH. unfold snippet_step, field_text.
    destruct (dict_get s f) as [[]|]; rewrite <- ?app_assoc; try done.
    simpl. by rewrite Hid.
Qed.

Lemma fetch_step_item fields items d :
  fetch_step str_of fields items d = items ++ [item_of str_of fields d].
Proof.
  unfold fetch_step, item_of, snippet_parts_of.
  by rewrite foldl_snippet_step.
Qed.

(** The loop of [fetch_titles] builds one item per document, in order. *)
Lemma fetch_titles_items db col fields :
  fetch_titles str_of db col fields
  = item_of str_of fields <$> get_documents db col.
Proof.
  unfold fetch_titles.
  assert (∀ docs acc, foldl (fetch_step str_of fields) acc docs
                      = acc ++ (item_of str_of fields <$> docs)) as H.
  { induction docs as [|d docs IH]; intros acc.
    - simpl. by rewrite app_nil_r.
    - cbn [foldl]. rewrite IH, fetch_step_item, <- app_assoc. done. }
  apply H.
Qed.

Lemma item_of_snippet fields d :
  dict_get (item_of str_of fields d) (lit "snippet")
  = Some (VStr (Py.join separator
                  (snippet_parts_of fields (serialize_doc str_of d)))).
Proof. unfold item_of. apply dict_get_set_eq. Qed.

Lemma snippet_parts_bounded fields (s : dict) :
  Forall (λ p : str, p ≠ [] ∧ (length p ≤ 200)%nat) (snippet_parts_of fields s).
Proof.
  unfold snippet_parts_of. apply Forall_fmap, Forall_forall.
  intros p [Hp _]%list_elem_of_filter. simpl. split.
  - by destruct p.
  - rewrite length_take. lia.
Qed.

Lemma corpus_of_create db col data :
  col ≠ lit "blogpost" → col ≠ lit "casestudy" → col ≠ lit "project" →
  corpus_of str_of (fst (create_document db col data)) = corpus_of str_of db.
Proof.
  intros H1 H2 H3. unfold corpus_of, fetch_titles.
  by rewrite !get_documents_create_ne.
Qed.

Lemma corpus_of_items db :
  corpus_of str_of db
  = take 10 (item_of str_of [lit "title"; lit "tags"; lit "content"]
               <$> get_documents db (lit "blogpost"))
    ++ take 10 (item_of str_of [lit "title"; lit "summary"; lit "impact"]
                  <$> get_documents db (lit "casestudy"))
    ++ take 10 (item_of str_of [lit "title"; lit "description"; lit "tech_stack"]
                  <$> get_documents db (lit "project")).
Proof. unfold corpus_of. by rewrite !fetch_titles_items. Qed.

Lemma corpus_item_snippet db item :
  item ∈ corpus_of str_of db →
  ∃ sn, dict_get item (lit "snippet") = Some (VStr sn).
Proof.
  rewrite corpus_of_items, !elem_of_app.
  intros [H|[H|H]]; apply subseteq_take in H;
    apply list_elem_of_fmap in H as (d & -> & _);
    rewrite item_of_snippet; eauto.
Qed.

Lemma score_ok tokens item :
  title_is_text item = true →
  (∃ sn, dict_get item (lit "snippet") = Some (VStr sn)) →
  score lower tokens item = Ok (score_of lower tokens item).
Proof.
  intros Ht [sn Hsn]. unfold score, score_of, item_text, title_is_text in *.
  rewrite Hsn.
  destruct (dict_get item (lit "title")) as [[]|]; simpl in *; try done.
  by rewrite <- app_assoc.
Qed.

Lemma best_of_ranked tokens corpus :
  Forall (λ item, title_is_text item = true) corpus →
  Forall (λ item, ∃ sn, dict_get item (lit "snippet") = Some (VStr sn)) corpus →
  best_of lower tokens corpus
  = Ok (take 3 (Py.sorted_pure Nat.ltb (score_of lower tokens) true corpus)).
Proof.
  intros Ht Hs. unfold best_of.
  rewrite (sorted_is_sorted_pure nat_lt (score lower tokens)
             (score_of lower tokens) Nat.ltb (score_of lower tokens)).
  - done.
  - rewrite Forall_forall in Ht, Hs. apply Forall_forall. intros x Hx.
    apply score_ok; auto.
  - done.
Qed.

Lemma ranked_stably_sorted tokens corpus :
  stably_sorted (higher_score lower tokens) (score_of lower tokens) corpus
    (Py.sorted_pure Nat.ltb (score_of lower tokens) true corpus).
Proof.
  split; [|split].
  - apply sorted_pure_perm.
  - eapply StronglySorted_weaken; [|apply sorted_pure_descending].
    + intros x y. unfold flip, not_after, higher_score.
      rewrite Nat.ltb_ge. done.
    + apply nat_ltb_asym.
    + apply nat_ltb_negtrans.
  - intros k. apply sorted_pure_stable, nat_ltb_irrefl.
Qed.




(** Documents with text titles, as the schemas require them, give corpus
    items with text titles. *)
Lemma item_of_title_is_text fields d :
  titled d → title_is_text (item_of str_of fields d) = true.
Proof.
  intros [Hnd Ht]. unfold title_is_text, item_of.
  rewrite dict_get_set_ne by lit_neq.
  rewrite serialize_doc_get; [|done|lit_neq|lit_neq].
  by destruct (dict_get d (lit "title")) as [[]|].
Qed.

Lemma corpus_titles_are_text db :
  Forall titled (get_documents db (lit "blogpost")) →
  Forall titled (get_documents db (lit "casestudy")) →
  Forall titled (get_documents db (lit "project")) →
  Forall (λ item, title_is_text item = true) (corpus_of str_of db).
Proof.
  intros Hb Hc Hp. rewrite corpus_of_items, !Forall_app.
  split; [|split]; apply Forall_take, Forall_fmap;
    (eapply Forall_impl; [eassumption|]);
    intros d Hd; by apply item_of_title_is_text.
Qed.

Lemma strip_not_blank (msg : str) : blank msg = false → Py.strip msg ≠ [].
Proof.
  unfold blank. intros Hb Hs. apply strip_nil_iff in Hs. congruence.
Qed.

(** An accepted request: the user message is stored, the reply is computed
    from the stripped message and the corpus, then stored and returned. *)
Lemma assistant_chat_accepted db req :
  blank (message req) = false →
  assistant_chat str_of lower db req
  = let user_msg := Py.strip (message req) in
    let db1 := fst (create_document db (lit "chat") (Chat (lit "user") user_msg)) in
    match best_of lower (tokens_of lower user_msg) (corpus_of str_of db) with
    | Raise e => (db1, Raise e)
    | Ok best =>
        (fst (create_document db1 (lit "chat")
                (Chat (lit "assistant") (reply_of str_of best))),
         Ok [(lit "reply", VStr (reply_of str_of best))])
    end.
Proof.
  intros Hb. unfold assistant_chat.
  rewrite bool_decide_eq_false_2 by by apply strip_not_blank.
  rewrite corpus_of_create; [done|lit_neq|lit_neq|lit_neq].
Qed.

Lemma best_of_corpus db tokens :
  Forall (λ item, title_is_text item = true) (corpus_of str_of db) →
  best_of lower tokens (corpus_of str_of db)
  = Ok (take 3 (Py.sorted_pure Nat.ltb (score_of lower tokens) true
                  (corpus_of str_of db))).
Proof.
  intros Ht. apply best_of_ranked; [done|].
  apply Forall_forall. intros item. apply corpus_item_snippet.
Qed.

Lemma chat_log_after_two db d1 d2 :
  let db1 := fst (create_document db (lit "chat") d1) in
  let db2 := fst (create_document db1 (lit "chat") d2) in
  ∃ o1 t1 o2 t2,
    get_documents db2 (lit "chat")
    = get_documents db (lit "chat")
      ++ [ dict_set (dict_set d1 (lit "created_at") (VDate t1)) (lit "_id") (VOid o1);
           dict_set (dict_set d2 (lit "created_at") (VDate t2)) (lit "_id") (VOid o2) ].
Proof.
  intros db1 db2.
  destruct (get_documents_create_eq db (lit "chat") d1) as (o1 & t1 & H1).
  destruct (get_documents_create_eq db1 (lit "chat") d2) as (o2 & t2 & H2).
  exists o1, t1, o2, t2. subst db1 db2. rewrite H2, H1, <- app_assoc. done.
Qed.

Lemma tokens_of_spec (msg t : str) :
  t ∈ tokens_of lower msg
  ↔ ∃ w, w ∈ Py.split msg ∧ (2 < length w)%nat ∧ t = lower w.
Proof.
  unfold tokens_of. rewrite elem_of_list_to_set, list_elem_of_fmap.
  split.
  - intros (w & -> & [Hlen Hw]%list_elem_of_filter). eauto.
  - intros (w & Hw & Hlen & ->). exists w. split; [done|].
    by apply list_elem_of_filter.
Qed.

Lemma score_of_spec (tokens : gset str) item :
  ∃ matched : gset str,
    score_of lower tokens item = size matched
    ∧ ∀ t, t ∈ matched ↔ t ∈ tokens ∧ substring t (item_text lower item).
Proof.
  exists (filter (λ t, Py.contains (item_text lower item) t = true) tokens).
  split; [done|]. intros t. rewrite elem_of_filter, contains_spec. tauto.
Qed.

End chat_facts.

(** ** Properties of the endpoints *)

Section properties.

Variable str_of : value → str.
Variable lower : str → str.

(** C1. [GET /projects] returns the serialized project documents sorted
    with featured documents first and, within each group, ascending by the
    serialized creation timestamp, a missing [created_at] counting as the
    empty text; documents that agree on both keep their store order. *)
Theorem list_projects_featured_then_oldest (db : database) :
  Forall timestamped (get_documents db (lit "project")) →
  ∃ out,
    list_projects str_of db = Ok out
    ∧ stably_sorted project_before project_rank
        (serialize_doc str_of <$> get_documents db (lit "project")) out.
Proof.
  intros Hdocs. unfold list_projects. by apply listing_featured_first.
Qed.

(** C2. [GET /blog] and [GET /case-studies] return the serialized documents
    sorted descending by text comparison on the serialized [created_at], a
    missing field counting as the empty text. *)
Theorem list_blog_and_case_studies_newest_first (db : database) :
  (Forall timestamped (get_documents db (lit "blogpost")) →
   ∃ out,
     list_blog_posts str_of db = Ok out
     ∧ stably_sorted newest_first created_text
         (serialize_doc str_of <$> get_documents db (lit "blogpost")) out)
  ∧ (Forall timestamped (get_documents db (lit "casestudy")) →
     ∃ out,
       list_case_studies str_of db = Ok out
       ∧ stably_sorted newest_first created_text
           (serialize_doc str_of <$> get_documents db (lit "casestudy")) out).
Proof.
  split; intros Hdocs.
  - unfold list_blog_posts. by apply listing_newest_first.
  - unfold list_case_studies. by apply listing_newest_first.
Qed.

(** C3. A chat request whose message is empty or only whitespace fails with
    HTTP 400 and leaves the store as it was: no Chat document is created. *)
Theorem assistant_chat_blank_rejected (db : database) (req : ChatRequest) :
  blank (message req) = true →
  assistant_chat str_of lower db req
  = (db, Raise (HTTPException 400 (lit "Empty message"))).
Proof.
  intros Hb. unfold assistant_chat.
  apply strip_nil_iff in Hb. rewrite Hb. done.
Qed.

(** C8. [GET /test] returns a response for every store state.  Without a
    store handle, or when a call on it raises, only the status text
    changes, and it carries at most 50 characters of the exception's
    message; when the store answers, the collection names reported are the
    first 10. *)
Theorem test_database_never_raises (environ : str → option str)
  (db : option database) :
  ∃ response,
    test_database environ db = inr response
    ∧ (∃ names, dict_get response (lit "collections") = Some (VList names)
                ∧ (length names ≤ 10)%nat)
    ∧ match db with
      | None =>
          dict_get response (lit "database")
          = Some (VStr (warning_sign ++ lit "  Available but not initialized"))
      | Some d =>
          match db_name d, db_list_collection_names d with
          | inl e, _ =>
              dict_get response (lit "database")
              = Some (VStr (cross_mark ++ lit " Error: " ++ take 50 e))
          | inr _, inl e =>
              dict_get response (lit "database")
              = Some (VStr (warning_sign ++ lit "  Connected but Error: "
                            ++ take 50 e))
          | inr _, inr names =>
              dict_get response (lit "database")
              = Some (VStr (check_mark ++ lit " Connected & Working"))
              ∧ dict_get response (lit "collections")
                = Some (VList (take 10 names))
          end
      end.
Proof.
  unfold test_database.
  destruct db as [d|].
  - destruct (db_name d) as [e|name],
      (db_list_collection_names d) as [e'|names];
      (eexists; split; [reflexivity|]; split;
        [first [ exists []; split; [reflexivity|simpl; lia]
               | exists (take 10 names); split;
                 [reflexivity|rewrite length_take; lia] ]
        |first [reflexivity | split; reflexivity]]).
  - eexists; split; [reflexivity|]; split; [|reflexivity].
    exists []; split; [reflexivity|simpl; lia].
Qed.

(** C9, as amended. A stored document that has no key [id] of its own is
    serialized item by item: the identifier under [_id] appears as text
    under [id], every date/time value as its ISO text, and every other key
    keeps its place and its value. *)
Theorem serialize_doc_without_id_key (doc : dict) :
  NoDup (keys doc) → lit "id" ∉ keys doc →
  serialize_doc str_of doc = serialize_entry str_of <$> doc
  ∧ faithful_serialization str_of doc (serialize_doc str_of doc).
Proof.
  intros Hnd Hid. split; [by apply serialize_doc_entries|]. split.
  - intros v Hv.
    by rewrite serialize_doc_entries, dict_get_entries_id, Hv.
  - intros k v Hk Hv. destruct (decide (k = lit "id")) as [->|Hne].
    + by rewrite dict_get_None in Hv.
    + rewrite serialize_doc_get by done. by rewrite Hv.
Qed.

(** C4. An accepted chat request (its message is not blank, and the titles
    in the corpus are texts, as the schemas have them) creates exactly two
    Chat documents, in this order: one with role "user" holding the
    message, stripped, and one with role "assistant" holding the reply,
    which is the text returned; no other collection changes. *)
Theorem assistant_chat_logs_both_messages (db : database) (req : ChatRequest) :
  blank (message req) = false →
  Forall (λ item, title_is_text item = true) (corpus_of str_of db) →
  ∃ db' reply u a,
    assistant_chat str_of lower db req = (db', Ok [(lit "reply", VStr reply)])
    ∧ get_documents db' (lit "chat") = get_documents db (lit "chat") ++ [u; a]
    ∧ dict_get u (lit "role") = Some (VStr (lit "user"))
    ∧ dict_get u (lit "message") = Some (VStr (Py.strip (message req)))
    ∧ dict_get a (lit "role") = Some (VStr (lit "assistant"))
    ∧ dict_get a (lit "message") = Some (VStr reply)
    ∧ ∀ col, col ≠ lit "chat" → get_documents db' col = get_documents db col.
Proof.
  intros Hb Ht. rewrite assistant_chat_accepted by done. cbv zeta.
  rewrite best_of_corpus by done.
  set (reply := reply_of str_of _).
  set (d1 := Chat (lit "user") _). set (d2 := Chat (lit "assistant") reply).
  destruct (chat_log_after_two db d1 d2) as (o1 & t1 & o2 & t2 & Hlog).
  eexists _, reply, _, _. split; [reflexivity|].
  split; [exact Hlog|]. repeat split; try reflexivity.
  intros col Hcol. by rewrite !get_documents_create_ne.
Qed.


(** C6. The tokens are the lowercased words of the (stripped) message that
    are longer than 2 characters, as a set; an item's score is the number
    of tokens that occur as a substring of its lowercased title-and-snippet
    text; the reply is built from the first three items of the corpus
    sorted by descending score, items of equal score in fetch order. *)
Theorem assistant_chat_ranks_by_token_overlap (db : database)
  (req : ChatRequest) :
  blank (message req) = false →
  Forall (λ item, title_is_text item = true) (corpus_of str_of db) →
  let user_msg := Py.strip (message req) in
  let tokens := tokens_of lower user_msg in
  let corpus := corpus_of str_of db in
  Forall (λ w : str, w ≠ [] ∧ Forall (λ c, Py.isspace c = false) w)
    (Py.split user_msg)
  ∧ concat (Py.split user_msg) = filter (λ c, Py.isspace c = false) user_msg
  ∧ (∀ t, t ∈ tokens
          ↔ ∃ w, w ∈ Py.split user_msg ∧ (2 < length w)%nat ∧ t = lower w)
  ∧ (∀ item, item ∈ corpus →
       ∃ matched : gset str,
         score lower tokens item = Ok (size matched)
         ∧ ∀ t, t ∈ matched ↔ t ∈ tokens ∧ substring t (item_text lower item))
  ∧ ∃ ranked,
      stably_sorted (higher_score lower tokens) (score_of lower tokens)
        corpus ranked
      ∧ best_of lower tokens corpus = Ok (take 3 ranked)
      ∧ snd (assistant_chat str_of lower db req)
        = Ok [(lit "reply", VStr (reply_of str_of (take 3 ranked)))].
Proof.
  intros Hb Ht user_msg tokens corpus.
  split; [apply split_words|]. split; [apply split_concat|].
  split; [apply tokens_of_spec|]. split.
  - intros item Hitem.
    destruct (score_of_spec lower tokens item) as (matched & Hsize & Hm).
    exists matched. split; [|done]. rewrite <- Hsize. apply score_ok.
    + rewrite Forall_forall in Ht. by apply Ht.
    + by eapply corpus_item_snippet.
  - exists (Py.sorted_pure Nat.ltb (score_of lower tokens) true corpus).
    split; [apply ranked_stably_sorted|]. split; [by apply best_of_corpus|].
    rewrite assistant_chat_accepted by done. cbv zeta.
    fold user_msg tokens corpus. subst corpus. by rewrite best_of_corpus.
Qed.


(** C10. For an accepted chat request the document stored with role "user"
    holds the stripped message, which neither starts nor ends with
    whitespace, and the reply is computed from the tokens of the stripped
    message. *)
Theorem assistant_chat_stores_stripped_message (db : database)
  (req : ChatRequest) :
  blank (message req) = false →
  let user_msg := Py.strip (message req) in
  (∃ u rest,
     get_documents (fst (assistant_chat str_of lower db req)) (lit "chat")
     = get_documents db (lit "chat") ++ (u :: rest)
     ∧ dict_get u (lit "role") = Some (VStr (lit "user"))
     ∧ dict_get u (lit "message") = Some (VStr user_msg))
  ∧ user_msg ≠ []
  ∧ (∀ c, head user_msg = Some c → Py.isspace c = false)
  ∧ (∀ c, last user_msg = Some c → Py.isspace c = false)
  ∧ snd (assistant_chat str_of lower db req)
    = match best_of lower (tokens_of lower user_msg) (corpus_of str_of db) with
      | Ok best => Ok [(lit "reply", VStr (reply_of str_of best))]
      | Raise e => Raise e
      end.
Proof.
  intros Hb user_msg. rewrite assistant_chat_accepted by done. cbv zeta.
  fold user_msg. split; [|split; [|split; [|split]]].
  - set (d1 := Chat (lit "user") user_msg).
    destruct (best_of lower _ _) as [best|e]; cbn [fst].
    + destruct (chat_log_after_two db d1
                  (Chat (lit "assistant") (reply_of str_of best)))
        as (o1 & t1 & o2 & t2 & Hlog).
      eexists _, [_]. split; [exact Hlog|]. by split.
    + destruct (get_documents_create_eq db (lit "chat") d1)
        as (o1 & t1 & Hlog).
      eexists _, []. split; [exact Hlog|]. by split.
  - by apply strip_not_blank.
  - intros c Hc. destruct user_msg as [|c' rest] eqn:E; [done|].
    injection Hc as ->. by eapply strip_first.
  - apply strip_last.
  - by destruct (best_of lower _ _).
Qed.

End properties.

(** C9, the claim as it stands fails: with a field [id] of its own after
    [_id], the document's identifier is not what [id] holds after
    serialization. *)
Lemma serialize_doc_id_shadowed :
  NoDup (keys shadowing_doc)
  ∧ serialize_doc sample_str_of shadowing_doc
    = [(lit "id", VStr (lit "legacy-7"))]
  ∧ ¬ faithful_serialization sample_str_of shadowing_doc
        (serialize_doc sample_str_of shadowing_doc).
Proof.
  split; [|split].
  - by_deciding.
  - reflexivity.
  - intros [Hid _]. specialize (Hid _ eq_refl).
    vm_compute in Hid. discriminate Hid.
Qed.

(** ** The properties on the sample store *)

Example list_projects_sample_titles :
  titles_of (list_projects sample_str_of sample_db)
  = [ Some (VStr (lit "Web Shop")); Some (VStr (lit "Blog Engine"));
      Some (VStr (lit "Rust Parser")) ].
Proof. vm_compute. reflexivity. Qed.

Example list_blog_posts_sample_titles :
  titles_of (list_blog_posts sample_str_of sample_db)
  = [ Some (VStr (lit "Shipping")); Some (VStr (lit "Parsing in Rust"));
      Some (VStr (lit "Hello")) ].
Proof. vm_compute. reflexivity. Qed.

(** Keys that cannot be compared make the listing raise. *)
Example list_blog_posts_unordered :
  list_blog_posts sample_str_of unordered_db = Raise TypeError.
Proof. vm_compute. reflexivity. Qed.

Example assistant_chat_sample_reply :
  snd (assistant_chat sample_str_of ascii_lower sample_db sample_request)
  = Ok [ (lit "reply",
          VStr (Py.join [10]
            [ highlights_header;
              lit "- Parsing in Rust: Parsing in Rust " ++ [8226]
                ++ lit " rust, parsing " ++ [8226] ++ lit " Combinators all the way";
              lit "- Rust Parser: Rust Parser " ++ [8226] ++ lit " A fast parser "
                ++ [8226] ++ lit " rust, nom";
              lit "- Shipping: Shipping " ++ [8226] ++ lit " web " ++ [8226]
                ++ lit " How the shop went live";
              closing_line ])) ].
Proof. vm_compute. reflexivity. Qed.

Lemma list_projects_sample :
  Forall timestamped (get_documents sample_db (lit "project"))
  ∧ ∃ out,
      list_projects sample_str_of sample_db = Ok out
      ∧ stably_sorted project_before project_rank
          (serialize_doc sample_str_of <$> get_documents sample_db (lit "project"))
          out.
Proof.
  assert (Forall timestamped (get_documents sample_db (lit "project"))) as H
    by by_deciding.
  split; [exact H|].
  exact (list_projects_featured_then_oldest sample_str_of sample_db H).
Defined.

Lemma list_blog_and_case_studies_sample :
  Forall timestamped (get_documents sample_db (lit "blogpost"))
  ∧ Forall timestamped (get_documents sample_db (lit "casestudy"))
  ∧ (∃ out,
       list_blog_posts sample_str_of sample_db = Ok out
       ∧ stably_sorted newest_first created_text
           (serialize_doc sample_str_of
              <$> get_documents sample_db (lit "blogpost")) out)
  ∧ (∃ out,
       list_case_studies sample_str_of sample_db = Ok out
       ∧ stably_sorted newest_first created_text
           (serialize_doc sample_str_of
              <$> get_documents sample_db (lit "casestudy")) out).
Proof.
  assert (Forall timestamped (get_documents sample_db (lit "blogpost"))) as Hb
    by by_deciding.
  assert (Forall timestamped (get_documents sample_db (lit "casestudy"))) as Hc
    by by_deciding.
  split; [exact Hb|]. split; [exact Hc|].
  split.
  - exact (proj1 (list_blog_and_case_studies_newest_first
                    sample_str_of sample_db) Hb).
  - exact (proj2 (list_blog_and_case_studies_newest_first
                    sample_str_of sample_db) Hc).
Defined.

Lemma assistant_chat_blank_sample :
  blank (message blank_request) = true
  ∧ assistant_chat sample_str_of ascii_lower sample_db blank_request
    = (sample_db, Raise (HTTPException 400 (lit "Empty message"))).
Proof.
  assert (blank (message blank_request) = true) as H by reflexivity.
  split; [exact H|].
  exact (assistant_chat_blank_rejected sample_str_of ascii_lower
           sample_db blank_request H).
Defined.

Lemma assistant_chat_logs_sample :
  blank (message sample_request) = false
  ∧ Forall (λ item, title_is_text item = true)
      (corpus_of sample_str_of sample_db)
  ∧ ∃ db' reply u a,
      assistant_chat sample_str_of ascii_lower sample_db sample_request
      = (db', Ok [(lit "reply", VStr reply)])
      ∧ get_documents db' (lit "chat")
        = get_documents sample_db (lit "chat") ++ [u; a]
      ∧ dict_get u (lit "role") = Some (VStr (lit "user"))
      ∧ dict_get u (lit "message")
        = Some (VStr (Py.strip (message sample_request)))
      ∧ dict_get a (lit "role") = Some (VStr (lit "assistant"))
      ∧ dict_get a (lit "message") = Some (VStr reply)
      ∧ ∀ col, col ≠ lit "chat" →
               get_documents db' col = get_documents sample_db col.
Proof.
  assert (blank (message sample_request) = false) as Hb by reflexivity.
  assert (Forall (λ item, title_is_text item = true)
            (corpus_of sample_str_of sample_db)) as Ht by by_deciding.
  split; [exact Hb|]. split; [exact Ht|].
  exact (assistant_chat_logs_both_messages sample_str_of ascii_lower
           sample_db sample_request Hb Ht).
Defined.


Lemma assistant_chat_ranks_sample :
  blank (message sample_request) = false
  ∧ Forall (λ item, title_is_text item = true)
      (corpus_of sample_str_of sample_db)
  ∧ ∃ ranked,
      stably_sorted
        (higher_score ascii_lower
           (tokens_of ascii_lower (Py.strip (message sample_request))))
        (score_of ascii_lower
           (tokens_of ascii_lower (Py.strip (message sample_request))))
        (corpus_of sample_str_of sample_db) ranked
      ∧ best_of ascii_lower
          (tokens_of ascii_lower (Py.strip (message sample_request)))
          (corpus_of sample_str_of sample_db)
        = Ok (take 3 ranked)
      ∧ snd (assistant_chat sample_str_of ascii_lower sample_db sample_request)
        = Ok [(lit "reply", VStr (reply_of sample_str_of (take 3 ranked)))].
Proof.
  assert (blank (message sample_request) = false) as Hb by reflexivity.
  assert (Forall (λ item, title_is_text item = true)
            (corpus_of sample_str_of sample_db)) as Ht by by_deciding.
  split; [exact Hb|]. split; [exact Ht|].
  exact (proj2 (proj2 (proj2 (proj2
           (assistant_chat_ranks_by_token_overlap sample_str_of ascii_lower
              sample_db sample_request Hb Ht))))).
Defined.

Lemma serialize_doc_sample :
  NoDup (keys (hd [] sample_projects))
  ∧ (lit "id" ∉ keys (hd [] sample_projects))
  ∧ serialize_doc sample_str_of (hd [] sample_projects)
    = serialize_entry sample_str_of <$> hd [] sample_projects
  ∧ faithful_serialization sample_str_of (hd [] sample_projects)
      (serialize_doc sample_str_of (hd [] sample_projects)).
Proof.
  assert (NoDup (keys (hd [] sample_projects))) as Hnd by by_deciding.
  assert (lit "id" ∉ keys (hd [] sample_projects)) as Hid by by_deciding.
  split; [exact Hnd|]. split; [exact Hid|].
  exact (serialize_doc_without_id_key sample_str_of
           (hd [] sample_projects) Hnd Hid).
Defined.

Lemma assistant_chat_stripped_sample :
  blank (message sample_request) = false
  ∧ (∃ u rest,
       get_documents
         (fst (assistant_chat sample_str_of ascii_lower sample_db sample_request))
         (lit "chat")
       = get_documents sample_db (lit "chat") ++ (u :: rest)
       ∧ dict_get u (lit "role") = Some (VStr (lit "user"))
       ∧ dict_get u (lit "message")
         = Some (VStr (Py.strip (message sample_request))))
  ∧ Py.strip (message sample_request) = lit "tell me about the RUST parser".
Proof.
  assert (blank (message sample_request) = false) as Hb by reflexivity.
  split; [exact Hb|]. split; [|reflexivity].
  exact (proj1 (assistant_chat_stores_stripped_message sample_str_of
                  ascii_lower sample_db sample_request Hb)).
Defined.

(** ** Further properties of [serialize_doc] *)

Lemma keys_dict_set (d : dict) k v :
  keys (dict_set d k v) = if decide (k ∈ keys d) then keys d else keys d ++ [k].
Proof.
  induction d as [|[k' v'] d IH]; [done|].
  cbn [dict_set]. destruct (decide (k' = k)) as [->|Hne].
  - rewrite decide_True; [done|]. unfold keys. rewrite fmap_cons. left.
  - unfold keys in *. rewrite !fmap_cons, IH. cbn [fst].
    destruct (decide (k ∈ fst <$> d)) as [Hin|Hnin].
    + rewrite decide_True; [done|]. by right.
    + rewrite decide_False; [done|].
      intros [?|?]%elem_of_cons; congruence.
Qed.

Lemma dict_set_NoDup (d : dict) k v :
  NoDup (keys d) → NoDup (keys (dict_set d k v)).
Proof.
  intros Hnd. rewrite keys_dict_set. destruct (decide (k ∈ keys d)); [done|].
  apply NoDup_app. split; [done|]. split; [|apply NoDup_singleton].
  intros x Hx ->%list_elem_of_singleton. done.
Qed.

Lemma dict_set_values (P : value → Prop) (d : dict) k v :
  Forall (λ kv, P (snd kv)) d → P v → Forall (λ kv, P (snd kv)) (dict_set d k v).
Proof.
  intros Hd Hv. induction Hd as [|[k' v'] d Hkv Hd IH]; cbn [dict_set].
  - by repeat constructor.
  - destruct (decide (k' = k)); constructor; done.
Qed.

Lemma length_dict_set (d : dict) k v :
  (length (dict_set d k v) ≤ S (length d))%nat.
Proof.
  induction d as [|[k' v'] d IH]; cbn [dict_set]; [done|].
  destruct (decide (k' = k)); simpl; lia.
Qed.

Section serialize_more.

Variable str_of : value → str.

(** Whatever holds of the empty dictionary and is kept by assigning, under
    a key other than [_id], a value that is not a date/time value, holds of
    every serialized document. *)
Lemma serialize_doc_invariant (I : dict → Prop) :
  I [] →
  (∀ out k v, I out → k ≠ lit "_id" → isoformat_of v = None →
              I (dict_set out k v)) →
  ∀ d, I (serialize_doc str_of d).
Proof.
  intros Hnil Hset d. unfold serialize_doc.
  generalize (@nil (str * value)) Hnil.
  induction d as [|[k v] d IH]; intros out Hout; [done|].
  cbn [foldl]. apply IH. rewrite serialize_item_entry. unfold serialize_entry.
  cbn [fst snd]. destruct (decide (k = lit "_id")) as [->|Hne]; cbn [fst snd].
  - apply Hset; [done|lit_neq|done].
  - apply Hset; [done|done|by destruct v].
Qed.

Lemma serialize_doc_NoDup d : NoDup (keys (serialize_doc str_of d)).
Proof.
  apply (serialize_doc_invariant (λ out, NoDup (keys out))).
  - constructor.
  - intros out k v Hout _ _. by apply dict_set_NoDup.
Qed.

Lemma serialize_doc_no_underscore_id d :
  lit "_id" ∉ keys (serialize_doc str_of d).
Proof.
  apply (serialize_doc_invariant (λ out, lit "_id" ∉ keys out)).
  - apply not_elem_of_nil.
  - intros out k v Hout Hk _. rewrite keys_dict_set.
    destruct (decide (k ∈ keys out)); [done|].
    intros [?|Heq%list_elem_of_singleton]%elem_of_app; [done|congruence].
Qed.

Lemma serialize_doc_values d :
  Forall (λ kv, isoformat_of (snd kv) = None) (serialize_doc str_of d).
Proof.
  apply (serialize_doc_invariant
           (Forall (λ kv, isoformat_of (snd kv) = None))).
  - constructor.
  - intros out k v Hout _ Hv.
    by apply (dict_set_values (λ v, isoformat_of v = None)).
Qed.

Lemma serialize_doc_length d :
  (length (serialize_doc str_of d) ≤ length d)%nat.
Proof.
  unfold serialize_doc.
  assert (∀ out, (length (foldl (serialize_item str_of) out d)
                  ≤ length out + length d)%nat) as H.
  { induction d as [|kv d IH]; intros out; [simpl; lia|].
    cbn [foldl]. etransitivity; [apply IH|].
    rewrite serialize_item_entry.
    pose proof (length_dict_set out (fst (serialize_entry str_of kv))
                  (snd (serialize_entry str_of kv))).
    simpl. lia. }
  apply (H []).
Qed.

(** A dictionary without [_id] and without date/time values is left as it
    is. *)
Lemma serialize_doc_fixed (d : dict) :
  NoDup (keys d) → lit "_id" ∉ keys d →
  Forall (λ kv, isoformat_of (snd kv) = None) d →
  serialize_doc str_of d = d.
Proof.
  intros Hnd Hid Hv.
  assert (serialize_entry str_of <$> d = d) as Hmap.
  { rewrite <- (list_fmap_id d) at 2. apply Forall_fmap_ext.
    rewrite Forall_forall in Hv. apply Forall_forall. intros [k v] Hkv.
    unfold serialize_entry. cbn [fst snd].
    rewrite decide_False.
    - specialize (Hv _ Hkv). by destruct v.
    - intros ->. apply Hid. unfold keys. apply list_elem_of_fmap.
      by exists (lit "_id", v). }
  unfold serialize_doc. rewrite foldl_serialize_entries.
  - by rewrite Hmap.
  - rewrite list_fmap_compose, Hmap. exact Hnd.
  - by intros k ?%elem_of_nil.
Qed.

(** X1. Serializing is idempotent. *)
Theorem serialize_doc_idempotent (doc : dict) :
  serialize_doc str_of (serialize_doc str_of doc) = serialize_doc str_of doc.
Proof.
  apply serialize_doc_fixed.
  - apply serialize_doc_NoDup.
  - apply serialize_doc_no_underscore_id.
  - apply serialize_doc_values.
Qed.

End serialize_more.

Lemma dict_get_is_Some (d : dict) k : k ∈ keys d → is_Some (dict_get d k).
Proof.
  induction d as [|[k' v'] d IH]; [by intros ?%elem_of_nil|].
  unfold keys. rewrite fmap_cons. cbn [fst dict_get].
  destruct (decide (k' = k)) as [|Hne]; [by eexists|].
  intros [?|Hk]%elem_of_cons; [congruence|]. by apply IH.
Qed.

Section serialize_keys.

Variable str_of : value → str.

Lemma foldl_serialize_keys out (d : dict) k :
  k ∈ keys (foldl (serialize_item str_of) out d) →
  k ∈ keys out ∨ k = lit "id" ∨ k ∈ keys d.
Proof.
  revert out. induction d as [|[k' v'] d IH]; intros out; [by left|].
  cbn [foldl]. intros [Hk|[Hk|Hk]]%IH.
  - rewrite serialize_item_entry, keys_dict_set in Hk.
    destruct (decide (_ ∈ keys out)); [by left|].
    apply elem_of_app in Hk as [Hk|Hk%list_elem_of_singleton]; [by left|].
    right. subst k. unfold serialize_entry. cbn [fst].
    destruct (decide (k' = lit "_id")); cbn [fst]; [by left|].
    right. unfold keys. rewrite fmap_cons. left.
  - by right; left.
  - right; right. unfold keys. rewrite fmap_cons. by right.
Qed.

Lemma foldl_serialize_get_id out (d : dict) :
  NoDup (keys d) → lit "_id" ∉ keys d →
  dict_get (foldl (serialize_item str_of) out d) (lit "id")
  = match dict_get d (lit "id") with
    | Some w => Some (serialize_value w)
    | None => dict_get out (lit "id")
    end.
Proof.
  revert out. induction d as [|[k v] d IH]; intros out Hnd Hid; [done|].
  unfold keys in Hnd, Hid. rewrite fmap_cons in Hnd, Hid. cbn [fst] in *.
  apply NoDup_cons in Hnd as [Hk Hnd].
  apply not_elem_of_cons in Hid as [Hne Hid].
  cbn [foldl dict_get]. rewrite IH by done.
  rewrite serialize_item_entry. unfold serialize_entry. cbn [fst snd].
  rewrite (decide_False (P := k = lit "_id")) by done. cbn [fst snd].
  destruct (decide (k = lit "id")) as [->|Hne'].
  - rewrite (dict_get_None d) by done. apply dict_get_set_eq.
  - destruct (dict_get d (lit "id")); [done|]. by apply dict_get_set_ne.
Qed.

(** X2. The shape of a serialized document, whatever the input: each key
    once, no key [_id], no date/time value, no more items than the input,
    and no key that is neither [id] nor a key of the input. *)
Theorem serialize_doc_output_shape (doc : dict) :
  let out := serialize_doc str_of doc in
  NoDup (keys out)
  ∧ (lit "_id" ∉ keys out)
  ∧ (∀ k v, (k, v) ∈ out → ∀ t, v ≠ VDate t)
  ∧ (length out ≤ length doc)%nat
  ∧ ∀ k, k ∈ keys out → k = lit "id" ∨ k ∈ keys doc.
Proof.
  intros out. split; [apply serialize_doc_NoDup|].
  split; [apply serialize_doc_no_underscore_id|]. split; [|split].
  - intros k v Hkv t ->.
    pose proof (serialize_doc_values str_of doc) as Hv.
    rewrite Forall_forall in Hv. by specialize (Hv _ Hkv).
  - apply serialize_doc_length.
  - intros k Hk. apply foldl_serialize_keys in Hk as [Hk|Hk]; [|done].
    by apply elem_of_nil in Hk.
Qed.

(** X3. A key other than [_id] and [id] is serialized on its own, also in a
    document that holds both [_id] and [id]: present with its value (a
    date/time value as ISO text) when the document has it, absent when it
    has not. *)
Theorem serialize_doc_keeps_other_keys (doc : dict) (k : str) :
  NoDup (keys doc) → k ≠ lit "_id" → k ≠ lit "id" →
  dict_get (serialize_doc str_of doc) k = serialize_value <$> dict_get doc k
  ∧ (k ∈ keys (serialize_doc str_of doc) ↔ k ∈ keys doc).
Proof.
  intros Hnd H1 H2. split; [by apply serialize_doc_get|]. split.
  - intros [Hk|[Hk|Hk]]%foldl_serialize_keys; [|done..].
    by apply elem_of_nil in Hk.
  - intros Hk. destruct (decide (k ∈ keys (serialize_doc str_of doc)))
      as [|Hn]; [done|].
    apply dict_get_None in Hn. rewrite serialize_doc_get in Hn by done.
    apply dict_get_is_Some in Hk as [w Hw]. by rewrite Hw in Hn.
Qed.

(** X4. When a document holds a field [id] besides [_id], the later of the
    two decides what [id] is after serialization: the field's own value
    when it comes after [_id], the identifier's text otherwise. *)
Theorem serialize_doc_id_later_wins (pre post : dict) (v : value) :
  NoDup (keys (pre ++ (lit "_id", v) :: post)) →
  dict_get (serialize_doc str_of (pre ++ (lit "_id", v) :: post)) (lit "id")
  = match dict_get post (lit "id") with
    | Some w => Some (serialize_value w)
    | None => Some (VStr (py_str str_of v))
    end.
Proof.
  intros Hnd. unfold keys in Hnd. rewrite fmap_app, fmap_cons in Hnd.
  apply NoDup_app in Hnd as (_ & _ & Hnd).
  apply NoDup_cons in Hnd as [Hid Hnd]. cbn [fst] in Hid.
  unfold serialize_doc. rewrite foldl_app. cbn [foldl].
  rewrite foldl_serialize_get_id by done.
  destruct (dict_get post (lit "id")); [done|].
  rewrite serialize_item_entry. unfold serialize_entry. cbn [fst snd].
  rewrite decide_True by done. apply dict_get_set_eq.
Qed.

End serialize_keys.

(** ** Further properties of [test_database] *)

(** X5. The response always has the same six fields, in the same order, and
    its [backend] field never changes. *)
Theorem test_database_response_fields (environ : str → option str)
  (db : option database) :
  ∃ response,
    test_database environ db = inr response
    ∧ keys response
      = [ lit "backend"; lit "database"; lit "database_url";
          lit "database_name"; lit "connection_status"; lit "collections" ]
    ∧ dict_get response (lit "backend")
      = Some (VStr (check_mark ++ lit " Running")).
Proof.
  unfold test_database.
  destruct db as [d|].
  - destruct (db_name d) as [e|name],
      (db_list_collection_names d) as [e'|names];
      destruct (environ (lit "DATABASE_URL")) as [[|c u]|];
      (eexists; split; [reflexivity|]; split; reflexivity).
  - eexists; split; [reflexivity|]; split; reflexivity.
Qed.

(** X6. What was assigned before an exception stays in the response.  With
    a store handle, [database_url] tells whether [DATABASE_URL] is set to a
    non-empty text, also when a later step raises; [connection_status]
    becomes "Connected" and [database_name] is filled only if reading the
    handle's name does not raise, and then also when listing the
    collections raises, in which case [collections] stays empty.  Without a
    handle these fields keep their initial values. *)
Theorem test_database_partial_report (environ : str → option str)
  (db : option database) :
  ∃ response,
    test_database environ db = inr response
    ∧ match db with
      | None =>
          dict_get response (lit "database_url") = Some VNone
          ∧ dict_get response (lit "database_name") = Some VNone
          ∧ dict_get response (lit "connection_status")
            = Some (VStr (lit "Not Connected"))
          ∧ dict_get response (lit "collections") = Some (VList [])
      | Some d =>
          dict_get response (lit "database_url")
          = Some (VStr match environ (lit "DATABASE_URL") with
                       | Some (_ :: _) => check_mark ++ lit " Set"
                       | _ => cross_mark ++ lit " Not Set"
                       end)
          ∧ match db_name d with
            | inl _ =>
                dict_get response (lit "database_name") = Some VNone
                ∧ dict_get response (lit "connection_status")
                  = Some (VStr (lit "Not Connected"))
                ∧ dict_get response (lit "collections") = Some (VList [])
            | inr name =>
                dict_get response (lit "database_name")
                = Some (VStr (default (check_mark ++ lit " Connected") name))
                ∧ dict_get response (lit "connection_status")
                  = Some (VStr (lit "Connected"))
                ∧ (∀ e, db_list_collection_names d = inl e →
                        dict_get response (lit "collections") = Some (VList []))
            end
      end.
Proof.
  unfold test_database.
  destruct db as [d|].
  - destruct (db_name d) as [e|name],
      (db_list_collection_names d) as [e'|names];
      destruct (environ (lit "DATABASE_URL")) as [[|c u]|];
      (eexists; split; [reflexivity|]; split; [reflexivity|];
       repeat split; try reflexivity; intros ? [=]).
  - eexists; split; [reflexivity|]. repeat split; reflexivity.
Qed.

(** ** Further properties of the listing endpoints *)

(** A sorted list whose order never puts an element outside [P] before one
    inside [P] is the elements inside [P] followed by the others. *)
Lemma StronglySorted_blocks {A} (R : relation A) (P : A → Prop)
  `{∀ x, Decision (P x)} (l : list A) :
  (∀ x y, R x y → P y → P x) →
  StronglySorted R l →
  l = filter P l ++ filter (λ x, ¬ P x) l.
Proof.
  intros HR. induction 1 as [|x l Hl IH Hx]; [done|].
  rewrite !filter_cons. destruct (decide (P x)) as [HP|HP].
  - rewrite decide_False by tauto. simpl. by f_equal.
  - rewrite decide_True by done.
    assert (filter P l = []) as Hnil.
    { clear IH Hl. induction Hx as [|y l Hy _ IH]; [done|].
      rewrite filter_cons_False; [done|]. intros HPy. apply HP. eauto. }
    rewrite Hnil in IH |- *. simpl in IH |- *. by f_equal.
Qed.

Lemma str_leb_nil_r (c : str) : str_leb c [] = true → c = [].
Proof. by destruct c. Qed.

Section listing_more.

Variable str_of : value → str.

(** X7. A collection of at most one document is listed without any
    comparison of keys: the three listings return it serialized, whatever
    its [created_at] and [featured] fields hold. *)
Theorem listings_of_at_most_one_document (db : database) :
  ((length (get_documents db (lit "blogpost")) ≤ 1)%nat →
   list_blog_posts str_of db
   = Ok (serialize_doc str_of <$> get_documents db (lit "blogpost")))
  ∧ ((length (get_documents db (lit "casestudy")) ≤ 1)%nat →
     list_case_studies str_of db
     = Ok (serialize_doc str_of <$> get_documents db (lit "casestudy")))
  ∧ ((length (get_documents db (lit "project")) ≤ 1)%nat →
     list_projects str_of db
     = Ok (serialize_doc str_of <$> get_documents db (lit "project"))).
Proof.
  unfold list_blog_posts, list_case_studies, list_projects.
  split; [|split]; intros Hlen;
    (destruct (get_documents db _) as [|d [|d' docs]];
       [reflexivity|reflexivity|simpl in Hlen; lia]).
Qed.

(** X8. In [GET /blog] and [GET /case-studies] the documents without a
    creation timestamp come last, in the order the store returned them. *)
Theorem listings_put_undated_last (db : database) :
  (Forall timestamped (get_documents db (lit "blogpost")) →
   ∃ out,
     list_blog_posts str_of db = Ok out
     ∧ out = filter (λ x, created_text x ≠ []) out
             ++ filter (λ x, created_text x = [])
                  (serialize_doc str_of <$> get_documents db (lit "blogpost")))
  ∧ (Forall timestamped (get_documents db (lit "casestudy")) →
     ∃ out,
       list_case_studies str_of db = Ok out
       ∧ out = filter (λ x, created_text x ≠ []) out
               ++ filter (λ x, created_text x = [])
                    (serialize_doc str_of <$> get_documents db (lit "casestudy"))).
Proof.
  assert (∀ docs out,
            stably_sorted newest_first created_text docs out →
            out = filter (λ x, created_text x ≠ []) out
                  ++ filter (λ x, created_text x = []) docs) as Hgen.
  { intros docs out (_ & Hsorted & Hstable).
    rewrite (StronglySorted_blocks newest_first
               (λ x, created_text x ≠ []) out) at 1.
    - f_equal.
      etransitivity; [|etransitivity; [apply (Hstable [])|]];
        apply list_filter_iff; intros x; [|done].
      destruct (decide (created_text x = [])); tauto.
    - intros x y Hxy Hy Hx. unfold newest_first in Hxy. rewrite Hx in Hxy.
      by apply str_leb_nil_r in Hxy.
    - done. }
  split; intros Hdocs.
  - destruct (listing_newest_first str_of _ Hdocs) as (out & Hout & Hs).
    exists out. split; [exact Hout|by apply Hgen].
  - destruct (listing_newest_first str_of _ Hdocs) as (out & Hout & Hs).
    exists out. split; [exact Hout|by apply Hgen].
Qed.

(** X9. [GET /projects] returns the featured documents as one block, then
    the others, and each block holds the documents of its kind. *)
Theorem list_projects_featured_block (db : database) :
  Forall timestamped (get_documents db (lit "project")) →
  ∃ out,
    list_projects str_of db = Ok out
    ∧ out = filter (λ x, featured x = true) out
            ++ filter (λ x, featured x = false) out
    ∧ filter (λ x, featured x = true) out
      ≡ₚ filter (λ x, featured x = true)
           (serialize_doc str_of <$> get_documents db (lit "project"))
    ∧ filter (λ x, featured x = false) out
      ≡ₚ filter (λ x, featured x = false)
           (serialize_doc str_of <$> get_documents db (lit "project")).
Proof.
  intros Hdocs.
  destruct (listing_featured_first str_of _ Hdocs)
    as (out & Hout & Hperm & Hsorted & _).
  exists out. split; [exact Hout|]. split; [|split].
  - rewrite (StronglySorted_blocks project_before
               (λ x, featured x = true) out) at 1.
    + f_equal. apply list_filter_iff. intros x. by destruct (featured x).
    + intros x y [[Hx _]|[Heq _]] Hy; congruence.
    + done.
  - by rewrite Hperm.
  - by rewrite Hperm.
Qed.

End listing_more.

(** ** Further properties of [assistant_chat] *)

Lemma size_list_to_set_le (l : list str) :
  (size (list_to_set l : gset str) ≤ length l)%nat.
Proof.
  induction l as [|x l IH]; [by rewrite list_to_set_nil, size_empty|].
  rewrite list_to_set_cons, size_union_alt, size_singleton. simpl.
  assert (size (list_to_set l ∖ {[x]} : gset str)
          ≤ size (list_to_set l : gset str))%nat as Hsub.
  { apply subseteq_size. intros t [Ht _]%elem_of_difference. exact Ht. }
  lia.
Qed.

Lemma length_join_le (sep : str) (m : nat) (l : list str) :
  Forall (λ p : str, (length p ≤ m)%nat) l →
  (length (Py.join sep l) ≤ length l * m + (length l - 1) * length sep)%nat.
Proof.
  induction 1 as [|p l Hp Hl IH]; [done|].
  cbn [Py.join]. destruct l as [|q l]; [simpl; lia|].
  rewrite !length_app. cbn [length] in *.
  rewrite Nat.sub_succ, Nat.sub_0_r in *. nia.
Qed.

Lemma insert_by_nat_total {A} (x : nat * A) (l : list (nat * A)) :
  ∃ r, Py.insert_by nat_lt x l = Ok r.
Proof.
  induction l as [|y l [r IH]]; [by eexists|].
  cbn [Py.insert_by]. change (nat_lt y.1 x.1) with (Ok (y.1 <? x.1)%nat).
  cbn [mbind result_bind].
  destruct (y.1 <? x.1)%nat; [|by eexists].
  rewrite IH. by eexists.
Qed.

Lemma sort_decorated_nat_total {A} (l : list (nat * A)) :
  ∃ r, Py.sort_decorated nat_lt l = Ok r.
Proof.
  induction l as [|x l [r IH]]; [by eexists|].
  cbn [Py.sort_decorated]. rewrite IH. cbn. apply insert_by_nat_total.
Qed.

Section chat_more.

Variable str_of : value → str.
Variable lower : str → str.

Lemma score_raises tokens item e :
  score lower tokens item = Raise e → e = TypeError.
Proof.
  unfold score, str_add.
  destruct (default (VStr []) (dict_get item (lit "title")));
    destruct (default (VStr []) (dict_get item (lit "snippet")));
    cbn; congruence.
Qed.

Lemma score_le_size tokens item n :
  score lower tokens item = Ok n → (n ≤ size tokens)%nat.
Proof.
  unfold score, str_add.
  destruct (default (VStr []) (dict_get item (lit "title")));
    destruct (default (VStr []) (dict_get item (lit "snippet")));
    cbn; try congruence.
  intros [= <-]. apply subseteq_size. intros t. rewrite elem_of_filter. tauto.
Qed.

Lemma score_untitled tokens item :
  title_is_text item = false → score lower tokens item = Raise TypeError.
Proof.
  unfold title_is_text, score, str_add.
  by destruct (dict_get item (lit "title")) as [[]|].
Qed.

Lemma decorate_raises tokens corpus e :
  mapM (λ x, k ← score lower tokens x; Ok (k, x)) corpus = Raise e →
  e = TypeError.
Proof.
  induction corpus as [|x corpus IH]; [done|].
  cbn [mapM]. destruct (score lower tokens x) as [n|e'] eqn:E; cbn.
  - destruct (mapM _ corpus) as [dl|e'']; cbn; [done|].
    intros [= <-]. by apply IH.
  - intros [= <-]. by eapply score_raises.
Qed.

Lemma decorate_untitled tokens corpus :
  Exists (λ item, title_is_text item = false) corpus →
  mapM (λ x, k ← score lower tokens x; Ok (k, x)) corpus = Raise TypeError.
Proof.
  induction 1 as [x corpus Hx|x corpus _ IH]; cbn [mapM].
  - by rewrite score_untitled.
  - rewrite IH. destruct (score lower tokens x) as [n|e] eqn:E; cbn; [done|].
    by apply score_raises in E as ->.
Qed.

Lemma best_of_raises tokens corpus e :
  best_of lower tokens corpus = Raise e → e = TypeError.
Proof.
  unfold best_of, Py.sorted.
  destruct (mapM _ corpus) as [dl|e'] eqn:E; cbn.
  - destruct (sort_decorated_nat_total (reverse dl)) as [r ->]. done.
  - intros [= <-]. by eapply decorate_raises.
Qed.

Lemma best_of_untitled tokens corpus :
  Exists (λ item, title_is_text item = false) corpus →
  best_of lower tokens corpus = Raise TypeError.
Proof.
  intros H. unfold best_of, Py.sorted. by rewrite decorate_untitled.
Qed.

(** The response of the handler, in every case. *)
Lemma assistant_chat_response db req :
  snd (assistant_chat str_of lower db req)
  = if blank (message req) then Raise (HTTPException 400 (lit "Empty message"))
    else match best_of lower (tokens_of lower (Py.strip (message req)))
                 (corpus_of str_of db) with
         | Ok best => Ok [(lit "reply", VStr (reply_of str_of best))]
         | Raise e => Raise e
         end.
Proof.
  destruct (blank (message req)) eqn:Hb.
  - unfold assistant_chat. apply strip_nil_iff in Hb. by rewrite Hb.
  - rewrite assistant_chat_accepted by done. cbv zeta.
    by destruct (best_of lower _ _).
Qed.

Lemma assistant_chat_other_collections db req col :
  col ≠ lit "chat" →
  get_documents (fst (assistant_chat str_of lower db req)) col
  = get_documents db col.
Proof.
  intros Hcol. destruct (blank (message req)) eqn:Hb.
  - unfold assistant_chat. apply strip_nil_iff in Hb. by rewrite Hb.
  - rewrite assistant_chat_accepted by done. cbv zeta.
    destruct (best_of lower _ _); cbn [fst];
      by rewrite ?get_documents_create_ne.
Qed.

Lemma corpus_of_first_ten db db' :
  (∀ col, col ∈ [lit "blogpost"; lit "casestudy"; lit "project"] →
          take 10 (get_documents db col) = take 10 (get_documents db' col)) →
  corpus_of str_of db = corpus_of str_of db'.
Proof.
  intros H. rewrite !corpus_of_items, <- !fmap_take.
  rewrite !(H _) by set_solver. done.
Qed.

(** X10. A request is refused as a client error exactly when its message is
    blank; an accepted request ends with a reply or with [TypeError],
    never with an HTTP error. *)
Theorem assistant_chat_client_error_iff_blank (db : database)
  (req : ChatRequest) :
  ((∃ code detail,
      snd (assistant_chat str_of lower db req)
      = Raise (HTTPException code detail))
   ↔ blank (message req) = true)
  ∧ (blank (message req) = false →
     (∃ reply, snd (assistant_chat str_of lower db req)
               = Ok [(lit "reply", VStr reply)])
     ∨ snd (assistant_chat str_of lower db req) = Raise TypeError).
Proof.
  rewrite assistant_chat_response.
  destruct (blank (message req)) eqn:Hb.
  - split; [|done]. split; [done|]. intros _. by eexists _, _.
  - destruct (best_of lower _ _) as [best|e] eqn:E.
    + split; [|intros _; left; by eexists].
      split; [by intros (? & ? & [=])|done].
    + apply best_of_raises in E as ->.
      split; [|intros _; by right].
      split; [by intros (? & ? & [=])|done].
Qed.

(** X11. When an item of the corpus has a title that is not a text, an
    accepted request fails with [TypeError] after the user's message has
    been stored: the log gains that one document and no reply. *)
Theorem assistant_chat_fails_after_logging (db : database) (req : ChatRequest) :
  blank (message req) = false →
  Exists (λ item, title_is_text item = false) (corpus_of str_of db) →
  ∃ db' u,
    assistant_chat str_of lower db req = (db', Raise TypeError)
    ∧ get_documents db' (lit "chat") = get_documents db (lit "chat") ++ [u]
    ∧ dict_get u (lit "role") = Some (VStr (lit "user"))
    ∧ dict_get u (lit "message") = Some (VStr (Py.strip (message req)))
    ∧ ∀ col, col ≠ lit "chat" → get_documents db' col = get_documents db col.
Proof.
  intros Hb Hbad. rewrite assistant_chat_accepted by done. cbv zeta.
  rewrite best_of_untitled by done.
  destruct (get_documents_create_eq db (lit "chat")
              (Chat (lit "user") (Py.strip (message req))))
    as (o & t & Hlog).
  eexists _, _. split; [reflexivity|]. split; [exact Hlog|].
  repeat split; try reflexivity.
  intros col Hcol. by rewrite get_documents_create_ne.
Qed.

(** X12. The handler keeps no memory: the response to a request is the same
    after any earlier request, accepted or not. *)
Theorem assistant_chat_has_no_memory (db : database)
  (earlier req : ChatRequest) :
  snd (assistant_chat str_of lower
         (fst (assistant_chat str_of lower db earlier)) req)
  = snd (assistant_chat str_of lower db req).
Proof.
  rewrite !assistant_chat_response.
  rewrite (corpus_of_first_ten (fst (assistant_chat str_of lower db earlier)) db);
    [done|].
  intros col Hcol. rewrite assistant_chat_other_collections; [done|].
  intros ->.
  repeat (apply elem_of_cons in Hcol as [Hcol|Hcol];
          [vm_compute in Hcol; discriminate Hcol|]).
  by apply elem_of_nil in Hcol.
Qed.

(** X13. The response depends on the store only through the first 10
    documents of each content collection: documents after the tenth, and
    every other collection, are never looked at. *)
Theorem assistant_chat_reads_first_ten (db db' : database) (req : ChatRequest) :
  (∀ col, col ∈ [lit "blogpost"; lit "casestudy"; lit "project"] →
          take 10 (get_documents db col) = take 10 (get_documents db' col)) →
  corpus_of str_of db = corpus_of str_of db'
  ∧ snd (assistant_chat str_of lower db req)
    = snd (assistant_chat str_of lower db' req).
Proof.
  intros H. apply corpus_of_first_ten in H. split; [done|].
  by rewrite !assistant_chat_response, H.
Qed.

End chat_more.

Lemma length_omap_le {A B} (f : A → option B) (l : list A) :
  (length (omap f l) ≤ length l)%nat.
Proof.
  induction l as [|x l IH]; [done|].
  cbn [omap list_omap]. destruct (f x); simpl; lia.
Qed.

Section chat_ranking.

Variable str_of : value → str.
Variable lower : str → str.

Lemma tokens_of_short (msg : str) :
  Forall (λ w : str, (length w ≤ 2)%nat) (Py.split msg) →
  tokens_of lower msg = ∅.
Proof.
  intros Hshort. unfold tokens_of.
  assert (filter (λ t : str, (2 < length t)%nat) (Py.split msg) = []) as ->.
  { induction Hshort as [|w ws Hw _ IH]; [done|].
    rewrite filter_cons_False by lia. exact IH. }
  done.
Qed.

Lemma score_of_no_tokens item : score_of lower ∅ item = 0%nat.
Proof.
  unfold score_of. apply size_empty_iff, elem_of_equiv_empty.
  intros t [_ Ht]%elem_of_filter. by apply not_elem_of_empty in Ht.
Qed.

Lemma snippet_parts_count fields (s : dict) :
  (length (snippet_parts_of fields s) ≤ length fields)%nat.
Proof.
  unfold snippet_parts_of. rewrite length_fmap.
  etransitivity; [apply length_filter|apply length_omap_le].
Qed.

(** X14. A message whose words all have at most 2 characters has no tokens,
    and the reply lists the first three items of the corpus, in fetch
    order. *)
Theorem assistant_chat_short_words (db : database) (req : ChatRequest) :
  blank (message req) = false →
  Forall (λ item, title_is_text item = true) (corpus_of str_of db) →
  Forall (λ w : str, (length w ≤ 2)%nat) (Py.split (Py.strip (message req))) →
  tokens_of lower (Py.strip (message req)) = ∅
  ∧ snd (assistant_chat str_of lower db req)
    = Ok [(lit "reply", VStr (reply_of str_of (take 3 (corpus_of str_of db))))].
Proof.
  intros Hb Ht Hshort. pose proof (tokens_of_short _ Hshort) as Htok.
  split; [done|]. rewrite assistant_chat_response, Hb, Htok.
  rewrite best_of_corpus by done.
  rewrite (sorted_pure_constant _ _ nat_ltb_irrefl true 0%nat); [done|].
  apply Forall_forall. intros item _. apply score_of_no_tokens.
Qed.

(** X15. The items selected are [min 3 n] of the [n] items of the corpus, and
    no item left out scores higher than a selected one. *)
Theorem best_of_keeps_highest_scores (db : database) (tokens : gset str) :
  Forall (λ item, title_is_text item = true) (corpus_of str_of db) →
  ∃ best rest,
    best_of lower tokens (corpus_of str_of db) = Ok best
    ∧ best ++ rest ≡ₚ corpus_of str_of db
    ∧ length best = min 3 (length (corpus_of str_of db))
    ∧ ∀ x y, x ∈ best → y ∈ rest →
             (score_of lower tokens y ≤ score_of lower tokens x)%nat.
Proof.
  intros Ht.
  set (ranked := Py.sorted_pure Nat.ltb (score_of lower tokens) true
                   (corpus_of str_of db)).
  destruct (ranked_stably_sorted lower tokens (corpus_of str_of db))
    as (Hperm & Hsorted & _). fold ranked in Hperm, Hsorted.
  exists (take 3 ranked), (drop 3 ranked).
  split; [by apply best_of_corpus|]. split; [by rewrite take_drop|]. split.
  - by rewrite length_take, Hperm.
  - intros x y Hx Hy. rewrite <- (take_drop 3 ranked) in Hsorted.
    by apply (StronglySorted_app_1_elem_of _ _ _ x y) in Hsorted.
Qed.

(** X16. Scoring an item either fails with [TypeError] or gives a number that
    does not exceed the number of words of the message longer than 2
    characters. *)
Theorem score_bounded_by_words (msg : str) (item : dict) :
  match score lower (tokens_of lower msg) item with
  | Ok n =>
      (n ≤ length (filter (λ w : str, (2 < length w)%nat) (Py.split msg)))%nat
  | Raise e => e = TypeError
  end.
Proof.
  destruct (score lower (tokens_of lower msg) item) as [n|e] eqn:E.
  - apply score_le_size in E. etransitivity; [exact E|].
    unfold tokens_of. etransitivity; [apply size_list_to_set_le|].
    by rewrite length_fmap.
  - by eapply score_raises.
Qed.

(** X17. The response depends on the message only through the set of its
    words: order and repetition of the words, and the whitespace between
    them, do not matter. *)
Theorem assistant_chat_reply_by_word_set (db : database)
  (req1 req2 : ChatRequest) :
  blank (message req1) = false → blank (message req2) = false →
  (∀ w, w ∈ Py.split (Py.strip (message req1))
        ↔ w ∈ Py.split (Py.strip (message req2))) →
  snd (assistant_chat str_of lower db req1)
  = snd (assistant_chat str_of lower db req2).
Proof.
  intros Hb1 Hb2 Hwords. rewrite !assistant_chat_response, Hb1, Hb2.
  assert (tokens_of lower (Py.strip (message req1))
          = tokens_of lower (Py.strip (message req2))) as ->; [|done].
  apply leibniz_equiv. intros t. rewrite !tokens_of_spec.
  split; intros (w & Hw & Hlen & ->); exists w; (split; [by apply Hwords|done]).
Qed.

(** X18. The snippet of every item of the corpus has at most 606 characters:
    three parts of at most 200 and two separators of 3. *)
Theorem corpus_snippets_bounded (db : database) :
  Forall (λ item,
            ∃ sn, dict_get item (lit "snippet") = Some (VStr sn)
                  ∧ (length sn ≤ 606)%nat)
    (corpus_of str_of db).
Proof.
  assert (∀ fields d, length fields = 3%nat →
            ∃ sn, dict_get (item_of str_of fields d) (lit "snippet")
                  = Some (VStr sn) ∧ (length sn ≤ 606)%nat) as Hitem.
  { intros fields d Hlen. eexists. split; [apply item_of_snippet|].
    pose proof (snippet_parts_count fields (serialize_doc str_of d)) as Hn.
    pose proof (length_join_le separator 200
                  (snippet_parts_of fields (serialize_doc str_of d))) as Hj.
    change (length separator) with 3%nat in Hj.
    etransitivity; [apply Hj|].
    - eapply Forall_impl; [apply snippet_parts_bounded|]. by intros p [_ ?].
    - rewrite Hlen in Hn. lia. }
  rewrite corpus_of_items, !Forall_app.
  split; [|split]; apply Forall_take, Forall_fmap, Forall_forall;
    intros d _; by apply Hitem.
Qed.

End chat_ranking.

(** ** The creation endpoints, followed by a listing *)

Lemma create_document_stored db col data :
  ∃ oid now,
    snd (create_document db col data) = oid_str oid
    ∧ get_documents (fst (create_document db col data)) col
      = get_documents db col
        ++ [dict_set (dict_set data (lit "created_at") (VDate now))
              (lit "_id") (VOid oid)].
Proof.
  unfold create_document.
  destruct (db_assign db (db_inserted db)) as [oid now]. exists oid, now.
  split; [done|]. cbn [fst]. unfold get_documents at 1. cbn.
  by rewrite lookup_insert_eq.
Qed.

Section creation_facts.

Variable str_of : value → str.

(** A document stored from fields that have none of the keys [created_at],
    [_id], [id]: it is timestamped, and serialized it shows the identifier
    under [id] and every field. *)
Lemma stored_document_serialized (fields : dict) oid now :
  NoDup (keys fields) →
  lit "created_at" ∉ keys fields → lit "_id" ∉ keys fields →
  lit "id" ∉ keys fields →
  let stored :=
    dict_set (dict_set fields (lit "created_at") (VDate now))
      (lit "_id") (VOid oid) in
  timestamped stored
  ∧ dict_get (serialize_doc str_of stored) (lit "id")
    = Some (VStr (oid_str oid))
  ∧ ∀ k v, dict_get fields k = Some v →
           dict_get (serialize_doc str_of stored) k = Some (serialize_value v).
Proof.
  intros Hnd Hc Hu Hi stored.
  assert (keys stored = keys fields ++ [lit "created_at"; lit "_id"]) as Hkeys.
  { subst stored. rewrite !keys_dict_set.
    rewrite (decide_False (P := lit "created_at" ∈ keys fields)) by done.
    rewrite decide_False; [by rewrite <- app_assoc|].
    intros [?|Heq%list_elem_of_singleton]%elem_of_app; [done|].
    vm_compute in Heq. discriminate Heq. }
  assert (NoDup (keys stored)) as Hnd'.
  { subst stored. by do 2 apply dict_set_NoDup. }
  assert (lit "id" ∉ keys stored) as Hi'.
  { rewrite Hkeys. intros [?|Hin]%elem_of_app; [done|].
    repeat (apply elem_of_cons in Hin as [Hin|Hin];
            [vm_compute in Hin; discriminate Hin|]).
    by apply elem_of_nil in Hin. }
  split; [|split].
  - split; [done|]. unfold has_timestamp. subst stored.
    rewrite dict_get_set_ne by lit_neq. by rewrite dict_get_set_eq.
  - rewrite serialize_doc_entries, dict_get_entries_id by done.
    subst stored. by rewrite dict_get_set_eq.
  - intros k v Hk.
    assert (k ∈ keys fields) as Hin.
    { destruct (decide (k ∈ keys fields)) as [|Hn]; [done|].
      apply dict_get_None in Hn. congruence. }
    rewrite serialize_doc_get; [|done|by intros ->|by intros ->].
    subst stored. rewrite !dict_get_set_ne by by intros <-.
    by rewrite Hk.
Qed.

Lemma stably_sorted_elem {A K} `{EqDecision K} (before : A → A → Prop)
  (key : A → K) (input out : list A) x :
  stably_sorted before key input out → x ∈ input →
  x ∈ out ∧ length out = length input.
Proof.
  intros (Hperm & _ & _) Hx. split; [by rewrite Hperm|by rewrite Hperm].
Qed.

(** X19. A document created through the API is found by the next listing of
    its collection: the listing has one document more, and among them one
    that carries the identifier the creation returned, under [id], with
    the title that was sent.  No other collection changes. *)
Theorem create_then_list (db : database) :
  (∀ post : BlogPost,
     Forall timestamped (get_documents db (lit "blogpost")) →
     ∃ new_id out x,
       snd (create_blog_post db post) = [(lit "id", VStr new_id)]
       ∧ list_blog_posts str_of (fst (create_blog_post db post)) = Ok out
       ∧ length out = S (length (get_documents db (lit "blogpost")))
       ∧ x ∈ out
       ∧ dict_get x (lit "id") = Some (VStr new_id)
       ∧ dict_get x (lit "title") = Some (VStr (bp_title post))
       ∧ ∀ col, col ≠ lit "blogpost" →
           get_documents (fst (create_blog_post db post)) col
           = get_documents db col)
  ∧ (∀ case : CaseStudy,
       Forall timestamped (get_documents db (lit "casestudy")) →
       ∃ new_id out x,
         snd (create_case_study db case) = [(lit "id", VStr new_id)]
         ∧ list_case_studies str_of (fst (create_case_study db case)) = Ok out
         ∧ length out = S (length (get_documents db (lit "casestudy")))
         ∧ x ∈ out
         ∧ dict_get x (lit "id") = Some (VStr new_id)
         ∧ dict_get x (lit "title") = Some (VStr (cs_title case))
         ∧ ∀ col, col ≠ lit "casestudy" →
             get_documents (fst (create_case_study db case)) col
             = get_documents db col)
  ∧ (∀ proj : Project,
       Forall timestamped (get_documents db (lit "project")) →
       ∃ new_id out x,
         snd (create_project db proj) = [(lit "id", VStr new_id)]
         ∧ list_projects str_of (fst (create_project db proj)) = Ok out
         ∧ length out = S (length (get_documents db (lit "project")))
         ∧ x ∈ out
         ∧ dict_get x (lit "id") = Some (VStr new_id)
         ∧ dict_get x (lit "title") = Some (VStr (pj_title proj))
         ∧ ∀ col, col ≠ lit "project" →
             get_documents (fst (create_project db proj)) col
             = get_documents db col).
Proof.
  split; [|split].
  - intros post Hdocs. unfold create_blog_post.
    destruct (create_document_stored db (lit "blogpost") (BlogPost_fields post))
      as (oid & now & Hid & Hlog).
    pose proof (get_documents_create_ne db (lit "blogpost")
                  (BlogPost_fields post)) as Hother.
    destruct (create_document db (lit "blogpost") (BlogPost_fields post))
      as [db' new_id]. cbn [fst snd] in *. subst new_id.
    destruct (stored_document_serialized (BlogPost_fields post) oid now)
      as (Hts & Hxid & Hfields); [by_deciding..|].
    destruct (listing_newest_first str_of (get_documents db' (lit "blogpost")))
      as (out & Hout & Hs); [rewrite Hlog; apply Forall_app; split;
         [exact Hdocs|constructor; [exact Hts|constructor]]|].
    eapply stably_sorted_elem in Hs as [Hx Hlen];
      [|rewrite Hlog, fmap_app; apply elem_of_app; right; left].
    eexists _, out, _. split; [reflexivity|]. split; [exact Hout|].
    split; [by rewrite Hlen, length_fmap, Hlog, length_app, Nat.add_1_r|].
    split; [exact Hx|]. split; [exact Hxid|].
    split; [|intros col Hcol; apply Hother; congruence].
    by rewrite (Hfields (lit "title") (VStr (bp_title post))).
  - intros case Hdocs. unfold create_case_study.
    destruct (create_document_stored db (lit "casestudy") (CaseStudy_fields case))
      as (oid & now & Hid & Hlog).
    pose proof (get_documents_create_ne db (lit "casestudy")
                  (CaseStudy_fields case)) as Hother.
    destruct (create_document db (lit "casestudy") (CaseStudy_fields case))
      as [db' new_id]. cbn [fst snd] in *. subst new_id.
    destruct (stored_document_serialized (CaseStudy_fields case) oid now)
      as (Hts & Hxid & Hfields); [by_deciding..|].
    destruct (listing_newest_first str_of (get_documents db' (lit "casestudy")))
      as (out & Hout & Hs); [rewrite Hlog; apply Forall_app; split;
         [exact Hdocs|constructor; [exact Hts|constructor]]|].
    eapply stably_sorted_elem in Hs as [Hx Hlen];
      [|rewrite Hlog, fmap_app; apply elem_of_app; right; left].
    eexists _, out, _. split; [reflexivity|]. split; [exact Hout|].
    split; [by rewrite Hlen, length_fmap, Hlog, length_app, Nat.add_1_r|].
    split; [exact Hx|]. split; [exact Hxid|].
    split; [|intros col Hcol; apply Hother; congruence].
    by rewrite (Hfields (lit "title") (VStr (cs_title case))).
  - intros proj Hdocs. unfold create_project.
    destruct (create_document_stored db (lit "project") (Project_fields proj))
      as (oid & now & Hid & Hlog).
    pose proof (get_documents_create_ne db (lit "project")
                  (Project_fields proj)) as Hother.
    destruct (create_document db (lit "project") (Project_fields proj))
      as [db' new_id]. cbn [fst snd] in *. subst new_id.
    destruct (stored_document_serialized (Project_fields proj) oid now)
      as (Hts & Hxid & Hfields); [by_deciding..|].
    destruct (listing_featured_first str_of (get_documents db' (lit "project")))
      as (out & Hout & Hs); [rewrite Hlog; apply Forall_app; split;
         [exact Hdocs|constructor; [exact Hts|constructor]]|].
    eapply stably_sorted_elem in Hs as [Hx Hlen];
      [|rewrite Hlog, fmap_app; apply elem_of_app; right; left].
    eexists _, out, _. split; [reflexivity|]. split; [exact Hout|].
    split; [by rewrite Hlen, length_fmap, Hlog, length_app, Nat.add_1_r|].
    split; [exact Hx|]. split; [exact Hxid|].
    split; [|intros col Hcol; apply Hother; congruence].
    by rewrite (Hfields (lit "title") (VStr (pj_title proj))).
Qed.

End creation_facts.

(** ** The further properties on the sample data *)

Lemma serialize_doc_keeps_other_keys_sample :
  NoDup (keys legacy_doc)
  ∧ dict_get (serialize_doc sample_str_of legacy_doc) (lit "created_at")
    = Some (VStr (lit "2023-12-31T23:59:59")).
Proof.
  assert (NoDup (keys legacy_doc)) as Hnd by by_deciding.
  assert (lit "created_at" ≠ lit "_id") as H1 by lit_neq.
  assert (lit "created_at" ≠ lit "id") as H2 by lit_neq.
  split; [exact Hnd|].
  exact (proj1 (serialize_doc_keeps_other_keys sample_str_of legacy_doc
                  (lit "created_at") Hnd H1 H2)).
Defined.

Lemma serialize_doc_id_later_wins_sample :
  NoDup (keys ([] ++ (lit "_id", sample_oid "65a1")
                 :: [(lit "id", VStr (lit "legacy-7"))]))
  ∧ dict_get (serialize_doc sample_str_of shadowing_doc) (lit "id")
    = Some (VStr (lit "legacy-7"))
  ∧ dict_get (serialize_doc sample_str_of legacy_doc) (lit "id")
    = Some (VStr (lit "65e1")).
Proof.
  assert (NoDup (keys ([] ++ (lit "_id", sample_oid "65a1")
                         :: [(lit "id", VStr (lit "legacy-7"))]))) as H1
    by by_deciding.
  assert (NoDup (keys ([(lit "id", VStr (lit "legacy-7"))]
                       ++ (lit "_id", sample_oid "65e1")
                       :: [ (lit "title", VStr (lit "Imported"));
                            (lit "created_at",
                             sample_date "2023-12-31T23:59:59") ]))) as H2
    by by_deciding.
  split; [exact H1|]. split.
  - exact (serialize_doc_id_later_wins sample_str_of [] _ _ H1).
  - exact (serialize_doc_id_later_wins sample_str_of _ _ _ H2).
Defined.

Lemma listings_of_at_most_one_document_sample :
  (length (get_documents untitled_db (lit "project")) ≤ 1)%nat
  ∧ list_projects sample_str_of untitled_db
    = Ok (serialize_doc sample_str_of
            <$> get_documents untitled_db (lit "project")).
Proof.
  assert (length (get_documents untitled_db (lit "project")) ≤ 1)%nat as H
    by by_deciding.
  split; [exact H|].
  exact (proj2 (proj2 (listings_of_at_most_one_document sample_str_of
                         untitled_db)) H).
Defined.

Lemma listings_put_undated_last_sample :
  Forall timestamped (get_documents sample_db (lit "blogpost"))
  ∧ ∃ out,
      list_blog_posts sample_str_of sample_db = Ok out
      ∧ out = filter (λ x, created_text x ≠ []) out
              ++ filter (λ x, created_text x = [])
                   (serialize_doc sample_str_of
                      <$> get_documents sample_db (lit "blogpost")).
Proof.
  assert (Forall timestamped (get_documents sample_db (lit "blogpost"))) as H
    by by_deciding.
  split; [exact H|].
  exact (proj1 (listings_put_undated_last sample_str_of sample_db) H).
Defined.

Lemma list_projects_featured_block_sample :
  Forall timestamped (get_documents sample_db (lit "project"))
  ∧ ∃ out,
      list_projects sample_str_of sample_db = Ok out
      ∧ out = filter (λ x, featured x = true) out
              ++ filter (λ x, featured x = false) out.
Proof.
  assert (Forall timestamped (get_documents sample_db (lit "project"))) as H
    by by_deciding.
  split; [exact H|].
  destruct (list_projects_featured_block sample_str_of sample_db H)
    as (out & Hout & Hblocks & _).
  exists out. split; [exact Hout|exact Hblocks].
Defined.

Lemma assistant_chat_client_error_sample :
  blank (message sample_request) = false
  ∧ ((∃ reply,
        snd (assistant_chat sample_str_of ascii_lower sample_db sample_request)
        = Ok [(lit "reply", VStr reply)])
     ∨ snd (assistant_chat sample_str_of ascii_lower sample_db sample_request)
       = Raise TypeError).
Proof.
  assert (blank (message sample_request) = false) as H by reflexivity.
  split; [exact H|].
  exact (proj2 (assistant_chat_client_error_iff_blank sample_str_of
                  ascii_lower sample_db sample_request) H).
Defined.

Lemma assistant_chat_fails_after_logging_sample :
  blank (message sample_request) = false
  ∧ Exists (λ item, title_is_text item = false)
      (corpus_of sample_str_of untitled_db)
  ∧ ∃ db' u,
      assistant_chat sample_str_of ascii_lower untitled_db sample_request
      = (db', Raise TypeError)
      ∧ get_documents db' (lit "chat")
        = get_documents untitled_db (lit "chat") ++ [u]
      ∧ dict_get u (lit "role") = Some (VStr (lit "user"))
      ∧ dict_get u (lit "message")
        = Some (VStr (Py.strip (message sample_request)))
      ∧ ∀ col, col ≠ lit "chat" →
               get_documents db' col = get_documents untitled_db col.
Proof.
  assert (blank (message sample_request) = false) as Hb by reflexivity.
  assert (Exists (λ item, title_is_text item = false)
            (corpus_of sample_str_of untitled_db)) as He by by_deciding.
  split; [exact Hb|]. split; [exact He|].
  exact (assistant_chat_fails_after_logging sample_str_of ascii_lower
           untitled_db sample_request Hb He).
Defined.

Lemma assistant_chat_reads_first_ten_sample :
  (∀ col, col ∈ [lit "blogpost"; lit "casestudy"; lit "project"] →
          take 10 (get_documents (crowded_db 10) col)
          = take 10 (get_documents (crowded_db 11) col))
  ∧ corpus_of sample_str_of (crowded_db 10)
    = corpus_of sample_str_of (crowded_db 11)
  ∧ snd (assistant_chat sample_str_of ascii_lower (crowded_db 10) sample_request)
    = snd (assistant_chat sample_str_of ascii_lower (crowded_db 11) sample_request).
Proof.
  assert (∀ col, col ∈ [lit "blogpost"; lit "casestudy"; lit "project"] →
                 take 10 (get_documents (crowded_db 10) col)
                 = take 10 (get_documents (crowded_db 11) col)) as H.
  { intros col Hcol.
    repeat (apply elem_of_cons in Hcol as [->|Hcol]; [reflexivity|]).
    by apply elem_of_nil in Hcol. }
  split; [exact H|].
  exact (assistant_chat_reads_first_ten sample_str_of ascii_lower
           (crowded_db 10) (crowded_db 11) sample_request H).
Defined.

Lemma assistant_chat_short_words_sample :
  blank (message short_request) = false
  ∧ Forall (λ item, title_is_text item = true)
      (corpus_of sample_str_of sample_db)
  ∧ Forall (λ w : str, (length w ≤ 2)%nat)
      (Py.split (Py.strip (message short_request)))
  ∧ tokens_of ascii_lower (Py.strip (message short_request)) = ∅
  ∧ snd (assistant_chat sample_str_of ascii_lower sample_db short_request)
    = Ok [(lit "reply",
           VStr (reply_of sample_str_of
                   (take 3 (corpus_of sample_str_of sample_db))))].
Proof.
  assert (blank (message short_request) = false) as Hb by reflexivity.
  assert (Forall (λ item, title_is_text item = true)
            (corpus_of sample_str_of sample_db)) as Ht by by_deciding.
  assert (Forall (λ w : str, (length w ≤ 2)%nat)
            (Py.split (Py.strip (message short_request)))) as Hs
    by by_deciding.
  split; [exact Hb|]. split; [exact Ht|]. split; [exact Hs|].
  exact (assistant_chat_short_words sample_str_of ascii_lower sample_db
           short_request Hb Ht Hs).
Defined.

Lemma best_of_keeps_highest_scores_sample :
  Forall (λ item, title_is_text item = true)
    (corpus_of sample_str_of sample_db)
  ∧ ∃ best rest,
      best_of ascii_lower (tokens_of ascii_lower (lit "rust parser"))
        (corpus_of sample_str_of sample_db) = Ok best
      ∧ best ++ rest ≡ₚ corpus_of sample_str_of sample_db
      ∧ length best = min 3 (length (corpus_of sample_str_of sample_db))
      ∧ ∀ x y, x ∈ best → y ∈ rest →
               (score_of ascii_lower (tokens_of ascii_lower (lit "rust parser")) y
                ≤ score_of ascii_lower
                    (tokens_of ascii_lower (lit "rust parser")) x)%nat.
Proof.
  assert (Forall (λ item, title_is_text item = true)
            (corpus_of sample_str_of sample_db)) as Ht by by_deciding.
  split; [exact Ht|].
  exact (best_of_keeps_highest_scores sample_str_of ascii_lower sample_db
           (tokens_of ascii_lower (lit "rust parser")) Ht).
Defined.

Lemma assistant_chat_reply_by_word_set_sample :
  blank (message rust_request) = false
  ∧ blank (message repeated_request) = false
  ∧ (∀ w, w ∈ Py.split (Py.strip (message rust_request))
          ↔ w ∈ Py.split (Py.strip (message repeated_request)))
  ∧ snd (assistant_chat sample_str_of ascii_lower sample_db rust_request)
    = snd (assistant_chat sample_str_of ascii_lower sample_db repeated_request).
Proof.
  assert (blank (message rust_request) = false) as H1 by reflexivity.
  assert (blank (message repeated_request) = false) as H2 by reflexivity.
  assert (∀ w, w ∈ Py.split (Py.strip (message rust_request))
               ↔ w ∈ Py.split (Py.strip (message repeated_request))) as Hw.
  { intros w.
    change (Py.split (Py.strip (message rust_request)))
      with [lit "rust"; lit "parser"].
    change (Py.split (Py.strip (message repeated_request)))
      with [lit "parser"; lit "rust"; lit "parser"].
    rewrite !elem_of_cons, !elem_of_nil. tauto. }
  split; [exact H1|]. split; [exact H2|]. split; [exact Hw|].
  exact (assistant_chat_reply_by_word_set sample_str_of ascii_lower sample_db
           rust_request repeated_request H1 H2 Hw).
Defined.

Lemma create_then_list_sample :
  Forall timestamped (get_documents sample_db (lit "blogpost"))
  ∧ ∃ new_id out x,
      snd (create_blog_post sample_db sample_post) = [(lit "id", VStr new_id)]
      ∧ list_blog_posts sample_str_of (fst (create_blog_post sample_db sample_post))
        = Ok out
      ∧ length out = S (length (get_documents sample_db (lit "blogpost")))
      ∧ x ∈ out
      ∧ dict_get x (lit "id") = Some (VStr new_id)
      ∧ dict_get x (lit "title") = Some (VStr (bp_title sample_post))
      ∧ ∀ col, col ≠ lit "blogpost" →
          get_documents (fst (create_blog_post sample_db sample_post)) col
          = get_documents sample_db col.
Proof.
  assert (Forall timestamped (get_documents sample_db (lit "blogpost"))) as H
    by by_deciding.
  split; [exact H|].
  exact (proj1 (create_then_list sample_str_of sample_db) sample_post H).
Defined.

Example create_blog_post_sample_listing :
  titles_of (list_blog_posts sample_str_of
               (fst (create_blog_post sample_db sample_post)))
  = [ Some (VStr (lit "Release notes")); Some (VStr (lit "Shipping"));
      Some (VStr (lit "Parsing in Rust")); Some (VStr (lit "Hello")) ].
Proof. vm_compute. reflexivity. Qed.

Example assistant_chat_untitled_sample :
  snd (assistant_chat sample_str_of ascii_lower untitled_db sample_request)
  = Raise TypeError.
Proof. vm_compute. reflexivity. Qed.
